(** * JKBMS codec: frame reassembly, decoders and command frames

    A shallow embedding of [src/libs/JKBMS.cpp] / [src/libs/JKBMS.h]:
    the notification handler that reassembles 300-byte frames, the three
    decoders it dispatches to, the checksum and the 20-byte command frame
    of [writeRegister].

    Conventions of the embedding.
    - A [uint8_t] is a [Byte.byte]; [byte_to_Z] is the integer promotion
      and [u8] the truncating conversion back.
    - An [int] or [uint32_t] is a [Z]; the one place where the source can
      leave the [int] range (a byte shifted left by 24) is wrapped by
      [int32].
    - A [float] field holds the exact rational value of the C expression
      assigned to it (an integer times a decimal constant); the rounding to
      binary32 that the assignment performs is not part of the model.  The
      stored float is that value rounded, so sign and zero carry over as
      they are; the float determines the integer it was computed from for
      the 12- and 16-bit quantities and for 32-bit readings of magnitude
      up to 10,000,000, and the values of 32-bit fields are stated on that
      range only.
    - [receivedBytes] is a list of 320 bytes; a store outside the array is
      the outcome [OutOfBounds] instead of a silent no-op.
    - The BLE handles ([pChr], [advDevice], [connected], [doConnect]) are
      not part of the state: neither the handler nor a decoder reads or
      writes them.  [DEBUG_ENABLED] is [false], so the debug macros expand
      to nothing. *)

From Stdlib Require Import ZArith QArith Lia String Strings.Byte.
From stdpp Require Import base list.

Local Open Scope Z_scope.

(** ** Bytes and machine integers *)

Definition byte_to_Z (b : byte) : Z := Z.of_N (Byte.to_N b).

(** Conversion to [uint8_t]: the low eight bits. *)
Definition u8 (z : Z) : byte :=
  match Byte.of_N (Z.to_N (z mod 256)) with
  | Some b => b
  | None => x00
  end.

(** Wrap-around of a value into the range of a 32-bit [int]. *)
Definition int32 (z : Z) : Z := (z + 2 ^ 31) mod 2 ^ 32 - 2 ^ 31.

(** [a[i]] for a constant index, promoted to [int]. *)
Definition byte_at (a : list byte) (i : nat) : Z := byte_to_Z (nth i a x00).

(** ** The device object *)

(** The fields under "BMS Data Fields" of the class. *)
Record CellData := {
  cellVoltage : list Q;
  wireResist : list Q;
  Average_Cell_Voltage : Q;
  Delta_Cell_Voltage : Q;
  Battery_Voltage : Q;
  Battery_Power : Q;
  Charge_Current : Q;
  Battery_T1 : Q;
  Battery_T2 : Q;
  MOS_Temp : Q;
  Percent_Remain : Z;
  Capacity_Remain : Q;
  Nominal_Capacity : Q;
  Cycle_Count : Q;
  Cycle_Capacity : Q;
  Uptime : Z;
  sec : Z;
  mi : Z;
  hr : Z;
  days : Z;
  Balance_Curr : Q;
  Balance : bool;
  Charge : bool;
  Discharge : bool;
  Balancing_Action : Z
}.

(** The fields under "BMS Settings" of the class. *)
Record Settings := {
  balance_trigger_voltage : Q;
  cell_voltage_undervoltage_protection : Q;
  cell_voltage_undervoltage_recovery : Q;
  cell_voltage_overvoltage_protection : Q;
  cell_voltage_overvoltage_recovery : Q;
  power_off_voltage : Q;
  max_charge_current : Q;
  charge_overcurrent_protection_delay : Q;
  charge_overcurrent_protection_recovery_time : Q;
  max_discharge_current : Q;
  discharge_overcurrent_protection_delay : Q;
  discharge_overcurrent_protection_recovery_time : Q;
  short_circuit_protection_recovery_time : Q;
  max_balance_current : Q;
  charge_overtemperature_protection : Q;
  charge_overtemperature_protection_recovery : Q;
  discharge_overtemperature_protection : Q;
  discharge_overtemperature_protection_recovery : Q;
  charge_undertemperature_protection : Q;
  charge_undertemperature_protection_recovery : Q;
  power_tube_overtemperature_protection : Q;
  power_tube_overtemperature_protection_recovery : Q;
  cell_count : Z;
  total_battery_capacity : Q;
  short_circuit_protection_delay : Q;
  balance_starting_voltage : Q
}.

(** The "Data Processing" fields, and the two groups above. *)
Record JKBMS := {
  targetMAC : string;
  lastNotifyTime : Z;
  receivedBytes : list byte;
  frame : Z;
  received_start : bool;
  received_complete : bool;
  new_data : bool;
  ignoreNotifyCount : Z;
  bms_data : CellData;
  bms_cfg : Settings
}.

(** [sizeof(receivedBytes)]. *)
Definition RECEIVED_BYTES_SIZE : Z := 320.

Definition set_lastNotifyTime (v : Z) (s : JKBMS) : JKBMS :=
  {| targetMAC := targetMAC s; lastNotifyTime := v;
     receivedBytes := receivedBytes s; frame := frame s;
     received_start := received_start s;
     received_complete := received_complete s; new_data := new_data s;
     ignoreNotifyCount := ignoreNotifyCount s;
     bms_data := bms_data s; bms_cfg := bms_cfg s |}.

(** [receivedBytes[frame++] = b], once the index is known to be inside
    the array. *)
Definition set_buffer (buf : list byte) (fr : Z) (s : JKBMS) : JKBMS :=
  {| targetMAC := targetMAC s; lastNotifyTime := lastNotifyTime s;
     receivedBytes := buf; frame := fr;
     received_start := received_start s;
     received_complete := received_complete s; new_data := new_data s;
     ignoreNotifyCount := ignoreNotifyCount s;
     bms_data := bms_data s; bms_cfg := bms_cfg s |}.

(** [frame = v] *)
Definition set_buffer_cursor (v : Z) (s : JKBMS) : JKBMS :=
  set_buffer (receivedBytes s) v s.

Definition set_received (st co : bool) (s : JKBMS) : JKBMS :=
  {| targetMAC := targetMAC s; lastNotifyTime := lastNotifyTime s;
     receivedBytes := receivedBytes s; frame := frame s;
     received_start := st; received_complete := co;
     new_data := new_data s;
     ignoreNotifyCount := ignoreNotifyCount s;
     bms_data := bms_data s; bms_cfg := bms_cfg s |}.

Definition set_new_data (v : bool) (s : JKBMS) : JKBMS :=
  {| targetMAC := targetMAC s; lastNotifyTime := lastNotifyTime s;
     receivedBytes := receivedBytes s; frame := frame s;
     received_start := received_start s;
     received_complete := received_complete s; new_data := v;
     ignoreNotifyCount := ignoreNotifyCount s;
     bms_data := bms_data s; bms_cfg := bms_cfg s |}.

Definition set_ignoreNotifyCount (v : Z) (s : JKBMS) : JKBMS :=
  {| targetMAC := targetMAC s; lastNotifyTime := lastNotifyTime s;
     receivedBytes := receivedBytes s; frame := frame s;
     received_start := received_start s;
     received_complete := received_complete s; new_data := new_data s;
     ignoreNotifyCount := v;
     bms_data := bms_data s; bms_cfg := bms_cfg s |}.

Definition set_bms_data (v : CellData) (s : JKBMS) : JKBMS :=
  {| targetMAC := targetMAC s; lastNotifyTime := lastNotifyTime s;
     receivedBytes := receivedBytes s; frame := frame s;
     received_start := received_start s;
     received_complete := received_complete s; new_data := new_data s;
     ignoreNotifyCount := ignoreNotifyCount s;
     bms_data := v; bms_cfg := bms_cfg s |}.

Definition set_bms_cfg (v : Settings) (s : JKBMS) : JKBMS :=
  {| targetMAC := targetMAC s; lastNotifyTime := lastNotifyTime s;
     receivedBytes := receivedBytes s; frame := frame s;
     received_start := received_start s;
     received_complete := received_complete s; new_data := new_data s;
     ignoreNotifyCount := ignoreNotifyCount s;
     bms_data := bms_data s; bms_cfg := v |}.

Definition zero_CellData : CellData :=
  {| cellVoltage := replicate 16 0%Q; wireResist := replicate 16 0%Q;
     Average_Cell_Voltage := 0; Delta_Cell_Voltage := 0;
     Battery_Voltage := 0; Battery_Power := 0; Charge_Current := 0;
     Battery_T1 := 0; Battery_T2 := 0; MOS_Temp := 0;
     Percent_Remain := 0; Capacity_Remain := 0; Nominal_Capacity := 0;
     Cycle_Count := 0; Cycle_Capacity := 0;
     Uptime := 0; sec := 0; mi := 0; hr := 0; days := 0;
     Balance_Curr := 0; Balance := false; Charge := false;
     Discharge := false; Balancing_Action := 0 |}.

Definition zero_Settings : Settings :=
  {| balance_trigger_voltage := 0;
     cell_voltage_undervoltage_protection := 0;
     cell_voltage_undervoltage_recovery := 0;
     cell_voltage_overvoltage_protection := 0;
     cell_voltage_overvoltage_recovery := 0;
     power_off_voltage := 0; max_charge_current := 0;
     charge_overcurrent_protection_delay := 0;
     charge_overcurrent_protection_recovery_time := 0;
     max_discharge_current := 0;
     discharge_overcurrent_protection_delay := 0;
     discharge_overcurrent_protection_recovery_time := 0;
     short_circuit_protection_recovery_time := 0;
     max_balance_current := 0;
     charge_overtemperature_protection := 0;
     charge_overtemperature_protection_recovery := 0;
     discharge_overtemperature_protection := 0;
     discharge_overtemperature_protection_recovery := 0;
     charge_undertemperature_protection := 0;
     charge_undertemperature_protection_recovery := 0;
     power_tube_overtemperature_protection := 0;
     power_tube_overtemperature_protection_recovery := 0;
     cell_count := 0; total_battery_capacity := 0;
     short_circuit_protection_delay := 0;
     balance_starting_voltage := 0 |}.

(** The constructor [JKBMS::JKBMS(mac)].  The fields it does not assign
    ([Uptime], [sec], [mi], [hr], [days]) are zero: the only instances
    are the elements of the global array [jkBmsDevices]. *)
Definition JKBMS_new (mac : string) : JKBMS :=
  {| targetMAC := mac; lastNotifyTime := 0;
     receivedBytes := replicate 320 x00; frame := 0;
     received_start := false; received_complete := false;
     new_data := false; ignoreNotifyCount := 0;
     bms_data := zero_CellData; bms_cfg := zero_Settings |}.

(** ** Effects: state, the out-of-bounds error, and an observation trace *)

Inductive Decoder := Dec_bms_settings | Dec_parseData | Dec_parseDeviceInfo.

(** What a call does besides changing the object: a store into
    [receivedBytes] at an index, and a call of a decoder, with the object
    as the decoder finds it on entry. *)
Inductive event :=
| EvStore (idx : Z)
| EvDecode (d : Decoder) (entry : JKBMS).

Inductive outcome (A : Type) :=
| Done (a : A) (s : JKBMS) (tr : list event)
| OutOfBounds (idx : Z).
Arguments Done {A} a s tr.
Arguments OutOfBounds {A} idx.

Definition M (A : Type) : Type := JKBMS -> outcome A.

Definition ret {A} (a : A) : M A := fun s => Done a s [].

Definition bind {A B} (m : M A) (k : A -> M B) : M B := fun s =>
  match m s with
  | Done a s1 tr1 =>
      match k a s1 with
      | Done b s2 tr2 => Done b s2 (tr1 ++ tr2)
      | OutOfBounds i => OutOfBounds i
      end
  | OutOfBounds i => OutOfBounds i
  end.

Definition get : M JKBMS := fun s => Done s s [].
Definition modify (f : JKBMS -> JKBMS) : M unit := fun s => Done tt (f s) [].
Definition emit (e : event) : M unit := fun s => Done tt s [e].

(** The sequencing notations [x ← m; k] and [m;; k] are stdpp's. *)
#[global] Instance M_ret : MRet M := @ret.
#[global] Instance M_bind : MBind M := fun A B k m => bind m k.

(** ** Decoders *)

Section Decoders.
Variable rb : list byte.

(** [rb[i+1] << 8 | rb[i]] *)
Definition le16 (i : nat) : Z :=
  Z.lor (Z.shiftl (byte_at rb (i + 1)) 8) (byte_at rb i).

(** [rb[i+3] << 24 | rb[i+2] << 16 | rb[i+1] << 8 | rb[i]], an [int]. *)
Definition le32 (i : nat) : Z :=
  Z.lor (Z.lor (Z.lor (int32 (Z.shiftl (byte_at rb (i + 3)) 24))
                      (Z.shiftl (byte_at rb (i + 2)) 16))
               (Z.shiftl (byte_at rb (i + 1)) 8))
        (byte_at rb i).

(** The temperature rule used for [MOS_Temp], [Battery_T1] and
    [Battery_T2]; [i] is the offset of the low byte. *)
Definition temperature_raw (i : nat) : Z :=
  if byte_at rb (i + 1) =? 0xFF then
    Z.lor (Z.lor (Z.lor (int32 (Z.shiftl 0xFF 24)) (Z.shiftl 0xFF 16))
                 (Z.shiftl (byte_at rb (i + 1)) 8))
          (byte_at rb i)
  else le16 i.

(** [if (rb[i] > 0) flag = true; else if (rb[i] == 0) flag = false;] *)
Definition status_flag (i : nat) (old : bool) : bool :=
  if 0 <? byte_at rb i then true
  else if byte_at rb i =? 0 then false else old.
End Decoders.

Definition milli (z : Z) : Q := (inject_Z z * (1 # 1000))%Q.
Definition neg_milli (z : Z) : Q := (inject_Z z * (-1 # 1000))%Q.
Definition deci (z : Z) : Q := (inject_Z z * (1 # 10))%Q.

(** [JKBMS::bms_settings] *)
Definition bms_settings (s : JKBMS) : JKBMS :=
  let rb := receivedBytes s in
  set_bms_cfg
    {| cell_voltage_undervoltage_protection := milli (le32 rb 10);
       cell_voltage_undervoltage_recovery := milli (le32 rb 14);
       cell_voltage_overvoltage_protection := milli (le32 rb 18);
       cell_voltage_overvoltage_recovery := milli (le32 rb 22);
       balance_trigger_voltage := milli (le32 rb 26);
       power_off_voltage := milli (le32 rb 46);
       max_charge_current := milli (le32 rb 50);
       charge_overcurrent_protection_delay := inject_Z (le32 rb 54);
       charge_overcurrent_protection_recovery_time := inject_Z (le32 rb 58);
       max_discharge_current := milli (le32 rb 62);
       discharge_overcurrent_protection_delay := inject_Z (le32 rb 66);
       discharge_overcurrent_protection_recovery_time :=
         inject_Z (le32 rb 70);
       short_circuit_protection_recovery_time := inject_Z (le32 rb 74);
       max_balance_current := milli (le32 rb 78);
       charge_overtemperature_protection := deci (le32 rb 82);
       charge_overtemperature_protection_recovery := deci (le32 rb 86);
       discharge_overtemperature_protection := deci (le32 rb 90);
       discharge_overtemperature_protection_recovery := deci (le32 rb 94);
       charge_undertemperature_protection := deci (le32 rb 98);
       charge_undertemperature_protection_recovery := deci (le32 rb 102);
       power_tube_overtemperature_protection := deci (le32 rb 106);
       power_tube_overtemperature_protection_recovery :=
         deci (le32 rb 110);
       cell_count := le32 rb 114;
       total_battery_capacity := milli (le32 rb 130);
       short_circuit_protection_delay := inject_Z (le32 rb 134 * 1);
       balance_starting_voltage := milli (le32 rb 138) |} s.

(** The locals of [JKBMS::parseDeviceInfo]; they are dropped when the
    function returns. *)
Record DeviceInfo := {
  vendorID : list byte;
  hardwareVersion : list byte;
  softwareVersion : list byte;
  uptime : Z;
  powerOnCount : Z;
  deviceName : list byte;
  devicePasscode : list byte;
  manufacturingDate : list byte;
  serialNumber : list byte;
  passcode : list byte;
  userData : list byte;
  setupPasscode : list byte
}.

Definition bytes_range (rb : list byte) (from n : nat) : list byte :=
  take n (drop from rb).

(** [JKBMS::parseDeviceInfo]: clears [new_data]; with fewer than 134
    bytes it returns early, otherwise it reads the text fields. *)
Definition parseDeviceInfo (s : JKBMS) : JKBMS * option DeviceInfo :=
  let s1 := set_new_data false s in
  let rb := receivedBytes s1 in
  if frame s1 <? 134 then (s1, None)
  else
    (s1, Some {| vendorID := bytes_range rb 6 16;
                 hardwareVersion := bytes_range rb 22 8;
                 softwareVersion := bytes_range rb 30 8;
                 uptime := le32 rb 38 mod 2 ^ 32;
                 powerOnCount := le32 rb 42 mod 2 ^ 32;
                 deviceName := bytes_range rb 46 16;
                 devicePasscode := bytes_range rb 62 16;
                 manufacturingDate := bytes_range rb 78 8;
                 serialNumber := bytes_range rb 86 11;
                 passcode := bytes_range rb 97 5;
                 userData := bytes_range rb 102 16;
                 setupPasscode := bytes_range rb 118 16 |}).

(** [JKBMS::parseData] *)
Definition parseData (s : JKBMS) : JKBMS :=
  let s1 := set_ignoreNotifyCount 10 (set_new_data false s) in
  let rb := receivedBytes s1 in
  let old := bms_data s1 in
  let voltage := milli (le32 rb 150) in
  let current := milli (le32 rb 158) in
  let up0 := Z.lor (Z.lor (Z.shiftl (byte_at rb 196) 16)
                          (Z.shiftl (byte_at rb 195) 8))
                   (byte_at rb 194) in
  let up1 := up0 / 60 in
  let up2 := up1 / 60 in
  set_bms_data
    {| (* for (j = 0, i = 7; i < 38; j++, i += 2) *)
       cellVoltage := (fun j => milli (le16 rb (6 + 2 * j))) <$> seq 0 16;
       Average_Cell_Voltage := milli (le16 rb 74);
       Delta_Cell_Voltage := milli (le16 rb 76);
       (* for (j = 0, i = 81; i < 112; j++, i += 2) *)
       wireResist := (fun j => milli (le16 rb (80 + 2 * j))) <$> seq 0 16;
       MOS_Temp := deci (temperature_raw rb 144);
       Battery_Voltage := voltage;
       Charge_Current := current;
       Battery_Power := (voltage * current)%Q;
       Battery_T1 := deci (temperature_raw rb 162);
       Battery_T2 := deci (temperature_raw rb 164);
       Balance_Curr :=
         if Z.land (byte_at rb 171) 0xF0 =? 0x0 then
           milli (Z.lor (Z.shiftl (byte_at rb 171) 8) (byte_at rb 170))
         else if Z.land (byte_at rb 171) 0xF0 =? 0xF0 then
           neg_milli (Z.lor (Z.shiftl (Z.land (byte_at rb 171) 0x0F) 8)
                            (byte_at rb 170))
         else Balance_Curr old;
       Balancing_Action := byte_at rb 172;
       Percent_Remain := byte_at rb 173;
       Capacity_Remain := milli (le32 rb 174);
       Nominal_Capacity := milli (le32 rb 178);
       Cycle_Count := inject_Z (le32 rb 182);
       Cycle_Capacity := milli (le32 rb 186);
       sec := (up0 mod 60) mod 256;
       mi := (up1 mod 60) mod 256;
       hr := (up2 mod 24) mod 256;
       days := (up2 / 24) mod 256;
       Uptime := up2;
       Charge := status_flag rb 198 (Charge old);
       Discharge := status_flag rb 199 (Discharge old);
       Balance := status_flag rb 201 (Balance old) |} s1.

(** ** Checksum and command frame *)

(** [JKBMS::crc]: [crc += data[i]] in [uint8_t], for [i < len]. *)
Definition crc (data : list byte) (len : nat) : byte :=
  fold_left (fun c b => u8 (byte_to_Z c + byte_to_Z b)) (take len data) x00.

(** [JKBMS::writeRegister]: the 20 bytes handed to [pChr->writeValue]. *)
Definition writeRegister (address : byte) (value : Z) (len : byte)
  : list byte :=
  let fr := [xaa; x55; x90; xeb; address; len] ++ replicate 14 x00 in
  let fr := <[6%nat := u8 (Z.shiftr value 0)]> fr in
  let fr := <[7%nat := u8 (Z.shiftr value 8)]> fr in
  let fr := <[8%nat := u8 (Z.shiftr value 16)]> fr in
  let fr := <[9%nat := u8 (Z.shiftr value 24)]> fr in
  <[19%nat := crc fr 19]> fr.

(** ** The notification handler *)

(** [receivedBytes[frame++] = b] *)
Definition store_byte (b : byte) : M unit := fun s =>
  let idx := frame s in
  if (0 <=? idx) && (idx <? RECEIVED_BYTES_SIZE) then
    Done tt (set_buffer (<[Z.to_nat idx := b]> (receivedBytes s))
                        (idx + 1) s)
         [EvStore idx]
  else OutOfBounds idx.

(** [pData[0] == 0x55 && pData[1] == 0xAA && pData[2] == 0xEB &&
    pData[3] == 0x90] *)
Definition is_start_sequence (pData : list byte) : bool :=
  (byte_at pData 0 =? 0x55) && (byte_at pData 1 =? 0xAA)
  && (byte_at pData 2 =? 0xEB) && (byte_at pData 3 =? 0x90).

(** The loop of the start branch:
    [for (i = 0; i < length && frame < 300; i++)
       receivedBytes[frame++] = pData[i];] *)
Fixpoint store_loop (pData : list byte) : M unit :=
  match pData with
  | [] => mret tt
  | b :: rest =>
      s ← get;
      if frame s <? 300 then store_byte b;; store_loop rest
      else mret tt
  end.

Definition run_decoder (d : Decoder) : M unit :=
  s ← get;
  emit (EvDecode d s);;
  match d with
  | Dec_bms_settings => modify bms_settings
  | Dec_parseData => modify parseData
  | Dec_parseDeviceInfo => modify (fun s => fst (parseDeviceInfo s))
  end.

(** [switch (receivedBytes[4])] *)
Definition dispatch : M unit :=
  s ← get;
  let t := byte_at (receivedBytes s) 4 in
  if t =? 0x01 then run_decoder Dec_bms_settings
  else if t =? 0x02 then run_decoder Dec_parseData
  else if t =? 0x03 then run_decoder Dec_parseDeviceInfo
  else mret tt.

(** The loop of the continuation branch: store a byte, and when the
    cursor has reached 300 mark the frame complete, dispatch and leave
    the loop. *)
Fixpoint append_loop (pData : list byte) : M unit :=
  match pData with
  | [] => mret tt
  | b :: rest =>
      s ← get;
      if frame s <? 300 then
        store_byte b;;
        s1 ← get;
        if 300 <=? frame s1 then
          modify (set_received false true);;
          modify (set_new_data true);;
          dispatch
        else append_loop rest
      else mret tt
  end.

(** The body of [handleNotification] below the throttle check. *)
Definition reassemble (pData : list byte) : M unit :=
  if Z.of_nat (length pData) <? 4 then mret tt
  else if is_start_sequence pData then
    modify (set_buffer_cursor 0);;
    modify (set_received true false);;
    store_loop pData
  else
    s ← get;
    if received_start s && negb (received_complete s) then
      append_loop pData
    else mret tt.

(** [JKBMS::handleNotification(pData, length)]; [now] is the value
    [millis()] returns. *)
Definition handleNotification (now : Z) (pData : list byte) : M unit :=
  modify (set_lastNotifyTime now);;
  s ← get;
  if 0 <? ignoreNotifyCount s then
    modify (set_ignoreNotifyCount (ignoreNotifyCount s - 1))
  else reassemble pData.

(** Delivering a sequence of chunks, each with its clock reading. *)
Fixpoint deliver (chunks : list (Z * list byte)) : M unit :=
  match chunks with
  | [] => mret tt
  | (now, pData) :: rest => handleNotification now pData;; deliver rest
  end.

(** ** Vocabulary of the statements *)

Definition start_sequence : list byte := [x55; xaa; xeb; x90].

(** [src] copied into [buf] from index [f] on. *)
Definition blit (f : nat) (src buf : list byte) : list byte :=
  take f buf ++ src ++ drop (f + length src) buf.

(** The stores at the [n] consecutive indices from [f]. *)
Definition stores (f n : nat) : list event :=
  (fun i => EvStore (Z.of_nat i)) <$> seq f n.

Definition is_store (e : event) : Prop :=
  match e with EvStore _ => True | EvDecode _ _ => False end.

(** What a decoder does to the object. *)
Definition decoded (d : Decoder) (s : JKBMS) : JKBMS :=
  match d with
  | Dec_bms_settings => bms_settings s
  | Dec_parseData => parseData s
  | Dec_parseDeviceInfo => fst (parseDeviceInfo s)
  end.

(** The states the reassembler is in. *)
Definition Idle (s : JKBMS) : Prop :=
  received_start s = false \/ received_complete s = true.

Definition Accumulating (s : JKBMS) : Prop :=
  received_start s = true /\ received_complete s = false.

(** The array has its declared size and the cursor is inside the frame. *)
Definition well_formed (s : JKBMS) : Prop :=
  length (receivedBytes s) = 320%nat /\ 0 <= frame s <= 300.

(** The invariant of the handler: while a frame is being accumulated
    its first four bytes are the start sequence already stored. *)
Definition Inv (s : JKBMS) : Prop :=
  well_formed s /\
  (Accumulating s ->
   4 <= frame s /\ take 4 (receivedBytes s) = start_sequence).

Definition store_in_frame (e : event) : Prop :=
  match e with
  | EvStore idx => 0 <= idx < 300
  | EvDecode _ _ => True
  end.

Definition decode_on_full_frame (e : event) : Prop :=
  match e with
  | EvStore _ => True
  | EvDecode _ entry =>
      frame entry = 300 /\ take 4 (receivedBytes entry) = start_sequence
  end.

(** The part of the object the reassembler owns is the same in [s']
    as in [s]. *)
Definition reassembler_unchanged (s s' : JKBMS) : Prop :=
  receivedBytes s' = receivedBytes s /\ frame s' = frame s
  /\ received_start s' = received_start s
  /\ received_complete s' = received_complete s.

(** The decoded records are the same in [s'] as in [s]. *)
Definition records_unchanged (s s' : JKBMS) : Prop :=
  bms_data s' = bms_data s /\ bms_cfg s' = bms_cfg s.

(** The object and the trace a run ends with. *)
Definition final_state (o : outcome unit) : JKBMS :=
  match o with
  | Done _ s _ => s
  | OutOfBounds _ => JKBMS_new EmptyString
  end.

Definition trace_of (o : outcome unit) : list event :=
  match o with
  | Done _ _ tr => tr
  | OutOfBounds _ => []
  end.

(** The object the first decoder call of a trace found. *)
Fixpoint first_entry (tr : list event) : JKBMS :=
  match tr with
  | [] => JKBMS_new EmptyString
  | EvStore _ :: rest => first_entry rest
  | EvDecode _ entry :: _ => entry
  end.

(** Sample runs: a frame header with type byte [ty] followed by payload
    up to 299 bytes, delivered to a new object; the remaining byte comes
    in a chunk of four. *)
Definition sample_head (ty : byte) : list byte :=
  [x55; xaa; xeb; x90; ty] ++ replicate 294 x00.

Definition sample_tail : list byte := [x01; x02; x03; x04].

Definition sample_accumulating (ty : byte) : JKBMS :=
  final_state (handleNotification 1 (sample_head ty) (JKBMS_new EmptyString)).

(** A whole CellData frame in one chunk. *)
Definition sample_frame : list byte :=
  [x55; xaa; xeb; x90; x02] ++ replicate 295 x00.

(** The plain sum of a list of bytes; the 8-bit wrap-around sum is this
    modulo 256. *)
Definition byte_sum (l : list byte) : Z :=
  foldr (fun b acc => byte_to_Z b + acc) 0 l.

(** Following the specification's wording: a 16-bit pair read as a
    two's-complement value and sign-extended to a wider integer. *)
Definition sign_extend16 (v : Z) : Z :=
  if v <? 0x8000 then v else v - 0x10000.

(** An object whose buffer holds [lo], [hi] at offsets [i], [i + 1] and
    zeros elsewhere. *)
Definition sample_pair (i : nat) (lo hi : byte) : JKBMS :=
  set_buffer (<[i := lo]> (<[S i := hi]> (replicate 320 x00))) 300
             (JKBMS_new EmptyString).

(** ** Vocabulary of the reassembly statements *)

(** The decoder the [switch] selects for a buffer, if any. *)
Definition frame_decoder (rb : list byte) : option Decoder :=
  let t := byte_at rb 4 in
  if t =? 0x01 then Some Dec_bms_settings
  else if t =? 0x02 then Some Dec_parseData
  else if t =? 0x03 then Some Dec_parseDeviceInfo
  else None.

(** The object on which [dispatch] runs: buffer filled, cursor 300,
    flags "complete, not started", [new_data] set. *)
Definition completed (buf : list byte) (s : JKBMS) : JKBMS :=
  set_new_data true (set_received false true (set_buffer buf 300 s)).

(** The object and the trace [dispatch] ends with. *)
Definition dispatched (s : JKBMS) : JKBMS :=
  match frame_decoder (receivedBytes s) with
  | Some d => decoded d s
  | None => s
  end.

Definition dispatch_events (s : JKBMS) : list event :=
  match frame_decoder (receivedBytes s) with
  | Some d => [EvDecode d s]
  | None => []
  end.

(** A chunk the continuation branch takes: four bytes at least, not
    beginning with the start sequence. *)
Definition continuation (c : Z * list byte) : Prop :=
  (4 <= length c.2)%nat /\ is_start_sequence c.2 = false.

(** The bytes of a sequence of chunks, in arrival order. *)
Definition chunk_bytes (chunks : list (Z * list byte)) : list byte :=
  concat (snd <$> chunks).

(** The clock reading of the last chunk of a sequence. *)
Definition last_clock (chunks : list (Z * list byte)) (t0 : Z) : Z :=
  foldl (fun _ c => c.1) t0 chunks.

(** A frame of 310 bytes in four chunks of 100, 100, 90 and 20 bytes,
    and the same bytes cut differently. *)
Definition sample_split_head : list byte :=
  [x55; xaa; xeb; x90; x02] ++ replicate 95 x00.

Definition sample_split_mids : list (Z * list byte) :=
  [(2, replicate 100 x01); (3, replicate 90 x02)].

Definition sample_split_last : list byte := replicate 20 x03.

Definition sample_resplit_head : list byte :=
  [x55; xaa; xeb; x90; x02] ++ replicate 95 x00 ++ replicate 50 x01.

Definition sample_resplit_mids : list (Z * list byte) :=
  [(7, replicate 50 x01 ++ replicate 90 x02)].

(** What the handler keeps true of an object besides [Inv]: the throttle
    counter stays within 0..10, "started" and "complete" exclude each
    other, and while "complete" is set the buffer holds a whole frame. *)
Definition Inv_flags (s : JKBMS) : Prop :=
  0 <= ignoreNotifyCount s <= 10
  /\ (received_start s = true -> received_complete s = false)
  /\ (received_complete s = true ->
      frame s = 300 /\ take 4 (receivedBytes s) = start_sequence).

(** ** Vocabulary of the decoder statements *)

(** The unsigned value of the [n] bytes at offset [i], least significant
    byte first. *)
Fixpoint le_unsigned (rb : list byte) (i n : nat) : Z :=
  match n with
  | O => 0
  | S n' => byte_at rb i + 256 * le_unsigned rb (S i) n'
  end.

(** A 32-bit pattern read as a two's-complement number. *)
Definition twos_complement32 (u : Z) : Z :=
  if u <? 2 ^ 31 then u else u - 2 ^ 32.

(** An object whose buffer holds the bytes [bs] from offset [i] on and
    zeros elsewhere, with the cursor at 300. *)
Definition sample_bytes (i : nat) (bs : list byte) : JKBMS :=
  set_buffer (blit i bs (replicate 320 x00)) 300 (JKBMS_new EmptyString).

(** Offsets, fields and scale factors of the 32-bit fields of the
    settings record, as [bms_settings] has them. *)
Definition settings_table : list (nat * (Settings -> Q) * Q) :=
  [(10%nat, cell_voltage_undervoltage_protection, 1 # 1000);
   (14%nat, cell_voltage_undervoltage_recovery, 1 # 1000);
   (18%nat, cell_voltage_overvoltage_protection, 1 # 1000);
   (22%nat, cell_voltage_overvoltage_recovery, 1 # 1000);
   (26%nat, balance_trigger_voltage, 1 # 1000);
   (46%nat, power_off_voltage, 1 # 1000);
   (50%nat, max_charge_current, 1 # 1000);
   (54%nat, charge_overcurrent_protection_delay, 1);
   (58%nat, charge_overcurrent_protection_recovery_time, 1);
   (62%nat, max_discharge_current, 1 # 1000);
   (66%nat, discharge_overcurrent_protection_delay, 1);
   (70%nat, discharge_overcurrent_protection_recovery_time, 1);
   (74%nat, short_circuit_protection_recovery_time, 1);
   (78%nat, max_balance_current, 1 # 1000);
   (82%nat, charge_overtemperature_protection, 1 # 10);
   (86%nat, charge_overtemperature_protection_recovery, 1 # 10);
   (90%nat, discharge_overtemperature_protection, 1 # 10);
   (94%nat, discharge_overtemperature_protection_recovery, 1 # 10);
   (98%nat, charge_undertemperature_protection, 1 # 10);
   (102%nat, charge_undertemperature_protection_recovery, 1 # 10);
   (106%nat, power_tube_overtemperature_protection, 1 # 10);
   (110%nat, power_tube_overtemperature_protection_recovery, 1 # 10);
   (130%nat, total_battery_capacity, 1 # 1000);
   (134%nat, short_circuit_protection_delay, 1);
   (138%nat, balance_starting_voltage, 1 # 1000)]%Q.

(** ** Several devices: scan results, connection callbacks, routing *)

(** The "BLE Components" fields of the class that the callbacks use; a
    pointer is its address, 0 for [nullptr]. *)
Record Link := {
  pChr : Z;
  advDevice : Z;
  doConnect : bool;
  connected : bool
}.

(** An element of [jkBmsDevices]: the BLE fields and the fields of
    [JKBMS] above ([targetMAC] among them). *)
Record Device := {
  link : Link;
  codec : JKBMS
}.

(** What [ScanCallbacks::onResult] uses of an advertised device: the
    pointer it is given and [getAddress().toString()]. *)
Record Advertised := {
  adv_ptr : Z;
  adv_address : string
}.

(** The body of the loop of [ScanCallbacks::onResult] for one device. *)
Definition onResult_device (adv : Advertised) (d : Device) : Device :=
  if String.eqb (targetMAC (codec d)) EmptyString then d
  else if String.eqb (adv_address adv) (targetMAC (codec d))
          && negb (connected (link d)) && negb (doConnect (link d)) then
    {| link := {| pChr := pChr (link d); advDevice := adv_ptr adv;
                  doConnect := true; connected := connected (link d) |};
       codec := codec d |}
  else d.

(** [ScanCallbacks::onResult]: every device is looked at, there is no
    [break]. *)
Definition onResult (adv : Advertised) (devs : list Device) : list Device :=
  onResult_device adv <$> devs.

(** [ClientCallbacks::onConnect] *)
Definition onConnect (d : Device) : Device :=
  {| link := {| pChr := pChr (link d); advDevice := advDevice (link d);
                doConnect := doConnect (link d); connected := true |};
     codec := codec d |}.

(** [ClientCallbacks::onDisconnect] *)
Definition onDisconnect (d : Device) : Device :=
  {| link := {| pChr := pChr (link d); advDevice := advDevice (link d);
                doConnect := false; connected := false |};
     codec := codec d |}.

Inductive routed :=
| Routed (devs : list Device) (tr : list event)
| RoutedOutOfBounds (idx : Z).

(** [notifyCB]: the first device whose characteristic is the notifying
    one handles the chunk, then [break]. *)
Fixpoint notifyCB (devs : list Device) (p : Z) (now : Z)
    (pData : list byte) : routed :=
  match devs with
  | [] => Routed [] []
  | d :: rest =>
      if pChr (link d) =? p then
        match handleNotification now pData (codec d) with
        | Done _ s tr => Routed ({| link := link d; codec := s |} :: rest) tr
        | OutOfBounds i => RoutedOutOfBounds i
        end
      else
        match notifyCB rest p now pData with
        | Routed rest' tr => Routed (d :: rest') tr
        | RoutedOutOfBounds i => RoutedOutOfBounds i
        end
  end.

(** The position of the first device with characteristic [p]. *)
Fixpoint first_match (devs : list Device) (p : Z) : option nat :=
  match devs with
  | [] => None
  | d :: rest =>
      if pChr (link d) =? p then Some 0%nat
      else S <$> first_match rest p
  end.

(** Two devices for the sample runs: the second is accumulating a frame
    of type 0x02, both listen on characteristic 7. *)
Definition sample_link : Link :=
  {| pChr := 7; advDevice := 0; doConnect := false; connected := true |}.

Definition sample_fleet : list Device :=
  [ {| link := {| pChr := 3; advDevice := 0; doConnect := false;
                  connected := true |};
       codec := JKBMS_new "aa:aa:aa:aa:aa:aa" |};
    {| link := sample_link; codec := sample_accumulating x02 |};
    {| link := sample_link; codec := sample_accumulating x01 |} ].

Definition sample_advert : Advertised :=
  {| adv_ptr := 99; adv_address := "c8:47:80:31:9b:02" |}.

Definition sample_idle_device : Device :=
  {| link := {| pChr := 0; advDevice := 0; doConnect := false;
                connected := false |};
     codec := JKBMS_new "c8:47:80:31:9b:02" |}.

(** * Properties *)

(** ** Bytes *)

Lemma byte_to_Z_range (b : byte) : 0 <= byte_to_Z b < 256.
Proof.
  unfold byte_to_Z. pose proof (Byte.to_N_bounded b). lia.
Qed.

Lemma byte_to_Z_inj (a b : byte) : byte_to_Z a = byte_to_Z b -> a = b.
Proof.
  unfold byte_to_Z. intros H. apply N2Z.inj in H.
  pose proof (Byte.of_to_N a) as Ha. rewrite H, Byte.of_to_N in Ha.
  congruence.
Qed.

Lemma byte_to_Z_u8 (z : Z) : byte_to_Z (u8 z) = z mod 256.
Proof.
  unfold u8, byte_to_Z.
  assert (Hr : 0 <= z mod 256 < 256) by (apply Z.mod_pos_bound; lia).
  destruct (Byte.of_N (Z.to_N (z mod 256))) as [b|] eqn:E.
  - apply Byte.to_of_N in E. rewrite E. lia.
  - apply Byte.of_N_None_iff in E. lia.
Qed.

(** ** The record updates *)

Lemma set_buffer_same (s : JKBMS) :
  set_buffer (receivedBytes s) (frame s) s = s.
Proof. by destruct s. Qed.

Lemma set_buffer_twice (b1 b2 : list byte) (f1 f2 : Z) (s : JKBMS) :
  set_buffer b2 f2 (set_buffer b1 f1 s) = set_buffer b2 f2 s.
Proof. reflexivity. Qed.

(** ** The start sequence *)

Lemma is_start_sequence_take (pData : list byte) :
  (4 <= length pData)%nat ->
  is_start_sequence pData = true <-> take 4 pData = start_sequence.
Proof.
  intros Hlen.
  destruct pData as [|a [|b [|c [|d rest]]]]; simpl in Hlen; try lia.
  unfold is_start_sequence, byte_at, start_sequence. simpl.
  rewrite !andb_true_iff, !Z.eqb_eq. split.
  - intros [[[Ha Hb] Hc] Hd].
    rewrite (byte_to_Z_inj a x55 Ha), (byte_to_Z_inj b xaa Hb),
            (byte_to_Z_inj c xeb Hc), (byte_to_Z_inj d x90 Hd).
    reflexivity.
  - intros [= -> -> -> ->]. repeat split; reflexivity.
Qed.

(** ** Copying into the buffer *)

Lemma blit_nil (f : nat) (buf : list byte) : blit f [] buf = buf.
Proof.
  unfold blit. simpl. rewrite Nat.add_0_r. apply take_drop.
Qed.

Lemma blit_cons (f : nat) (b : byte) (src buf : list byte) :
  (f < length buf)%nat ->
  blit (S f) src (<[f := b]> buf) = blit f (b :: src) buf.
Proof.
  intros Hf. unfold blit.
  rewrite drop_insert_lt by lia.
  rewrite (take_S_r _ f b) by (by apply list_lookup_insert_eq).
  rewrite take_insert_ge by lia.
  rewrite <- app_assoc. cbn [app length]. rewrite Nat.add_succ_r. reflexivity.
Qed.

Lemma length_blit (f : nat) (src buf : list byte) :
  (f + length src <= length buf)%nat ->
  length (blit f src buf) = length buf.
Proof.
  intros H. unfold blit.
  rewrite !length_app, length_take, length_drop. lia.
Qed.

Lemma stores_cons (f n : nat) :
  EvStore (Z.of_nat f) :: stores (S f) n = stores f (S n).
Proof. reflexivity. Qed.

(** The loop of the start branch copies the chunk, as far as the frame
    has room, and does nothing else. *)
Lemma store_loop_spec (pData : list byte) :
  forall (s : JKBMS) (f : nat),
    frame s = Z.of_nat f -> (f <= 300)%nat ->
    length (receivedBytes s) = 320%nat ->
    let n := (length pData `min` (300 - f))%nat in
    store_loop pData s
    = Done tt (set_buffer (blit f (take n pData) (receivedBytes s))
                          (Z.of_nat (f + n)) s)
           (stores f n).
Proof.
  induction pData as [|b rest IH]; intros s f Hf Hle Hlen n.
  - subst n. simpl. rewrite blit_nil, Nat.add_0_r, <- Hf, set_buffer_same.
    reflexivity.
  - cbn [store_loop]. unfold mbind, M_bind, bind, get.
    destruct (Z.ltb_spec (frame s) 300) as [Hlt|Hge].
    + unfold store_byte at 1. unfold RECEIVED_BYTES_SIZE.
      replace ((0 <=? frame s) && (frame s <? 320)) with true
        by (symmetry; apply andb_true_iff; split;
            [apply Z.leb_le | apply Z.ltb_lt]; lia).
      rewrite (IH _ (S f)); cbn [frame receivedBytes set_buffer].
      * subst n. rewrite Hf, Nat2Z.id.
        replace (length (b :: rest) `min` (300 - f))%nat
          with (S (length rest `min` (300 - S f))) by (cbn [length]; lia).
        cbn [take]. rewrite <- blit_cons by lia.
        rewrite <- stores_cons, set_buffer_twice. cbn [app].
        do 2 f_equal. lia.
      * lia.
      * lia.
      * by rewrite length_insert.
    + subst n. replace (300 - f)%nat with 0%nat by lia.
      rewrite Nat.min_0_r. cbn [take]. rewrite blit_nil, Nat.add_0_r, <- Hf.
      rewrite set_buffer_same. reflexivity.
Qed.

(** ** Decoders and dispatch *)

Lemma decoded_buffer (d : Decoder) (s : JKBMS) :
  receivedBytes (decoded d s) = receivedBytes s
  /\ frame (decoded d s) = frame s
  /\ received_start (decoded d s) = received_start s
  /\ received_complete (decoded d s) = received_complete s.
Proof.
  destruct d; cbn; try done.
  unfold parseDeviceInfo. by destruct (_ <? 134).
Qed.

Lemma run_decoder_eq (d : Decoder) (s : JKBMS) :
  run_decoder d s = Done tt (decoded d s) [EvDecode d s].
Proof. by destruct d. Qed.

(** The four ways out of the [switch]. *)
Lemma dispatch_cases (s : JKBMS) :
  (exists d, dispatch s = Done tt (decoded d s) [EvDecode d s]
             /\ byte_at (receivedBytes s) 4
                = match d with
                  | Dec_bms_settings => 0x01
                  | Dec_parseData => 0x02
                  | Dec_parseDeviceInfo => 0x03
                  end)
  \/ (dispatch s = Done tt s []
      /\ byte_at (receivedBytes s) 4 <> 0x01
      /\ byte_at (receivedBytes s) 4 <> 0x02
      /\ byte_at (receivedBytes s) 4 <> 0x03).
Proof.
  unfold dispatch, mbind, M_bind, bind, get.
  destruct (Z.eqb_spec (byte_at (receivedBytes s) 4) 0x01) as [E1|E1].
  { left. exists Dec_bms_settings. by rewrite run_decoder_eq. }
  destruct (Z.eqb_spec (byte_at (receivedBytes s) 4) 0x02) as [E2|E2].
  { left. exists Dec_parseData. by rewrite run_decoder_eq. }
  destruct (Z.eqb_spec (byte_at (receivedBytes s) 4) 0x03) as [E3|E3].
  { left. exists Dec_parseDeviceInfo. by rewrite run_decoder_eq. }
  right. done.
Qed.

(** ** Shape of a run, for an arbitrary object *)

Lemma store_byte_inv (b : byte) (s s' : JKBMS) (tr : list event) :
  store_byte b s = Done tt s' tr ->
  0 <= frame s < 320
  /\ s' = set_buffer (<[Z.to_nat (frame s) := b]> (receivedBytes s))
                     (frame s + 1) s
  /\ tr = [EvStore (frame s)].
Proof.
  unfold store_byte, RECEIVED_BYTES_SIZE.
  destruct (Z.leb_spec 0 (frame s)), (Z.ltb_spec (frame s) 320);
    cbn; intros [= <- <-] || intros [=]; repeat split; lia.
Qed.

Lemma store_loop_shape (pData : list byte) :
  forall (s s' : JKBMS) (tr : list event),
    store_loop pData s = Done tt s' tr ->
    exists buf fr,
      length buf = length (receivedBytes s)
      /\ s' = set_buffer buf fr s /\ Forall is_store tr.
Proof.
  induction pData as [|b rest IH]; intros s s' tr.
  - intros [= <- <-]. exists (receivedBytes s), (frame s).
    by rewrite set_buffer_same.
  - cbn [store_loop]. unfold mbind, M_bind, bind, get.
    destruct (frame s <? 300).
    + destruct (store_byte b s) as [[] s1 tr1|] eqn:E1; [|done].
      destruct (store_loop rest s1) as [[] s2 tr2|] eqn:E2; [|done].
      intros [= <- <-].
      apply store_byte_inv in E1 as (_ & -> & ->).
      apply IH in E2 as (buf & fr & Hlen & -> & Htr).
      exists buf, fr. cbn in Hlen. rewrite length_insert in Hlen.
      repeat split; [done|]. cbn [app]. by constructor.
    + intros [= <- <-]. exists (receivedBytes s), (frame s).
      by rewrite set_buffer_same.
Qed.

(** The object on which [dispatch] runs once the frame is complete. *)
Lemma append_loop_shape (pData : list byte) :
  forall (s s' : JKBMS) (tr : list event),
    append_loop pData s = Done tt s' tr ->
    (exists buf fr,
        length buf = length (receivedBytes s)
        /\ s' = set_buffer buf fr s /\ Forall is_store tr)
    \/ (exists buf tr1 dtr,
        length buf = length (receivedBytes s)
        /\ dispatch (set_new_data true
                       (set_received false true (set_buffer buf 300 s)))
           = Done tt s' dtr
        /\ tr = tr1 ++ dtr /\ Forall is_store tr1).
Proof.
  induction pData as [|b rest IH]; intros s s' tr.
  - intros [= <- <-]. left. exists (receivedBytes s), (frame s).
    by rewrite set_buffer_same.
  - cbn [append_loop]. unfold mbind, M_bind, bind, get.
    destruct (Z.ltb_spec (frame s) 300) as [Hlt|Hge].
    + destruct (store_byte b s) as [[] s1 tr1|] eqn:E1; [|done].
      apply store_byte_inv in E1 as (_ & -> & ->).
      cbn [frame set_buffer].
      destruct (Z.leb_spec 300 (frame s + 1)) as [Hfull|Hmore].
      * replace (frame s + 1) with 300 by lia.
        unfold modify at 1 2. cbn [app].
        destruct (dispatch _) as [[] s2 tr2|] eqn:E2; [|done].
        intros [= <- <-]. right.
        eexists _, [EvStore (frame s)], tr2.
        split; [|split; [exact E2|split; [done|]]].
        -- by rewrite length_insert.
        -- by repeat constructor.
      * destruct (append_loop rest _) as [[] s2 tr2|] eqn:E2; [|done].
        intros [= <- <-].
        apply IH in E2 as [(buf & fr & Hlen & -> & Htr)
                          |(buf & tr1 & dtr & Hlen & Hd & -> & Htr)];
          cbn in Hlen; rewrite length_insert in Hlen.
        -- left. exists buf, fr. repeat split; [done|]. by constructor.
        -- right. exists buf, (EvStore (frame s) :: tr1), dtr.
           repeat split; try done. by constructor.
    + intros [= <- <-]. left. exists (receivedBytes s), (frame s).
      by rewrite set_buffer_same.
Qed.

(** ** The handler, branch by branch *)

Lemma handleNotification_throttled (now : Z) (pData : list byte) (s : JKBMS) :
  0 < ignoreNotifyCount s ->
  handleNotification now pData s
  = Done tt (set_ignoreNotifyCount (ignoreNotifyCount s - 1)
               (set_lastNotifyTime now s)) [].
Proof.
  intros H. unfold handleNotification, mbind, M_bind, bind, get, modify.
  cbn [ignoreNotifyCount set_lastNotifyTime].
  by destruct (Z.ltb_spec 0 (ignoreNotifyCount s)); [|lia].
Qed.

Lemma handleNotification_pass (now : Z) (pData : list byte) (s : JKBMS) :
  ignoreNotifyCount s <= 0 ->
  handleNotification now pData s
  = reassemble pData (set_lastNotifyTime now s).
Proof.
  intros H. unfold handleNotification, mbind, M_bind, bind, get, modify.
  cbn [ignoreNotifyCount set_lastNotifyTime].
  destruct (Z.ltb_spec 0 (ignoreNotifyCount s)); [lia|].
  by destruct (reassemble _ _).
Qed.

(** The start branch, whatever the reassembler state. *)
Lemma reassemble_start (pData : list byte) (s : JKBMS) :
  (4 <= length pData)%nat ->
  is_start_sequence pData = true ->
  length (receivedBytes s) = 320%nat ->
  let n := (length pData `min` 300)%nat in
  reassemble pData s
  = Done tt (set_buffer (take n pData ++ drop n (receivedBytes s))
                        (Z.of_nat n) (set_received true false s))
         (stores 0 n).
Proof.
  intros Hlen Hst Hbuf n. unfold reassemble.
  destruct (Z.ltb_spec (Z.of_nat (length pData)) 4); [lia|].
  rewrite Hst. unfold mbind, M_bind, bind, modify at 1 2.
  rewrite (store_loop_spec pData _ 0) by (done || lia).
  cbn [app]. rewrite Nat.sub_0_r. fold n. unfold blit.
  cbn [take app Nat.add receivedBytes set_received set_buffer_cursor
       set_buffer].
  rewrite length_take_le by (subst n; lia). reflexivity.
Qed.

Lemma reassemble_shape (pData : list byte) (s s' : JKBMS) (tr : list event) :
  reassemble pData s = Done tt s' tr ->
  (Forall is_store tr
   /\ (received_complete s' = true -> received_complete s = true))
  \/ (exists buf tr1 dtr,
        length buf = length (receivedBytes s)
        /\ received_start s = true /\ received_complete s = false
        /\ dispatch (set_new_data true
                       (set_received false true (set_buffer buf 300 s)))
           = Done tt s' dtr
        /\ tr = tr1 ++ dtr /\ Forall is_store tr1).
Proof.
  unfold reassemble.
  destruct (Z.of_nat (length pData) <? 4).
  { intros [= <- <-]. left. by split. }
  destruct (is_start_sequence pData).
  { unfold mbind, M_bind, bind, modify at 1 2.
    destruct (store_loop pData _) as [[] s1 tr1|] eqn:E; [|done].
    intros [= <- <-].
    apply store_loop_shape in E as (buf & fr & _ & -> & Htr).
    left. by split. }
  unfold mbind, M_bind, bind, get.
  destruct (received_start s) eqn:Es, (received_complete s) eqn:Ec;
    cbn [andb negb];
    try (intros [= <- <-]; left; split; [done|congruence]).
  destruct (append_loop pData s) as [[] s1 tr1|] eqn:E; [|done].
  intros [= <- <-].
  apply append_loop_shape in E
    as [(buf & fr & _ & -> & Htr)|(buf & tr1' & dtr & Hl & Hd & Ht)].
  - left. split; [done|]. cbn. congruence.
  - right. by exists buf, tr1', dtr.
Qed.

Lemma not_store_decode (tr : list event) (d : Decoder) (entry : JKBMS) :
  Forall is_store tr -> In (EvDecode d entry) tr -> False.
Proof.
  intros H Hin. rewrite Forall_forall in H.
  apply list_elem_of_In in Hin. exact (H _ Hin).
Qed.

(** A decoder event in the trace of a call: the call completed a frame,
    the decoder ran on the completed object, and nothing ran after it. *)
Lemma handleNotification_decode (now : Z) (pData : list byte)
    (s s' : JKBMS) (tr : list event) (d : Decoder) (entry : JKBMS) :
  handleNotification now pData s = Done tt s' tr ->
  In (EvDecode d entry) tr ->
  s' = decoded d entry
  /\ new_data entry = true
  /\ received_start entry = false /\ received_complete entry = true
  /\ frame entry = 300
  /\ byte_at (receivedBytes entry) 4
     = match d with
       | Dec_bms_settings => 0x01
       | Dec_parseData => 0x02
       | Dec_parseDeviceInfo => 0x03
       end.
Proof.
  intros Hrun Hin.
  destruct (Z.ltb_spec 0 (ignoreNotifyCount s)) as [Hthr|Hthr].
  { rewrite handleNotification_throttled in Hrun by done.
    injection Hrun as <- <-. destruct Hin. }
  rewrite handleNotification_pass in Hrun by done.
  apply reassemble_shape in Hrun
    as [[Htr _]|(buf & tr1 & dtr & _ & _ & _ & Hd & -> & Htr)].
  { destruct (not_store_decode _ _ _ Htr Hin). }
  apply in_app_or in Hin as [Hin|Hin].
  { destruct (not_store_decode _ _ _ Htr Hin). }
  destruct (dispatch_cases
              (set_new_data true
                 (set_received false true
                    (set_buffer buf 300 (set_lastNotifyTime now s)))))
    as [(d' & Hd' & Hty)|(Hd' & _)];
    rewrite Hd' in Hd; injection Hd as <- <-.
  - destruct Hin as [[= <- <-]|[]]. done.
  - destruct Hin.
Qed.

(** ** The invariant *)

Lemma store_byte_ok (b : byte) (s : JKBMS) :
  0 <= frame s < 320 ->
  store_byte b s
  = Done tt (set_buffer (<[Z.to_nat (frame s) := b]> (receivedBytes s))
                        (frame s + 1) s)
         [EvStore (frame s)].
Proof.
  intros H. unfold store_byte, RECEIVED_BYTES_SIZE.
  by destruct (Z.leb_spec 0 (frame s)), (Z.ltb_spec (frame s) 320);
    try lia.
Qed.

Lemma Inv_idle (s : JKBMS) :
  well_formed s -> ~ Accumulating s -> Inv s.
Proof. intros Hwf Hn. split; [done|]. intros Ha. by destruct Hn. Qed.

Lemma Inv_header (s : JKBMS) :
  well_formed s -> 4 <= frame s ->
  take 4 (receivedBytes s) = start_sequence -> Inv s.
Proof. intros Hwf H4 Hh. split; [done|]. intros _. by split. Qed.

Lemma Inv_decoded (d : Decoder) (s : JKBMS) :
  well_formed s -> received_start s = false -> Inv (decoded d s).
Proof.
  intros [Hlen Hfr] Hst.
  destruct (decoded_buffer d s) as (Eb & Ef & Es & Ec).
  apply Inv_idle.
  - unfold well_formed. by rewrite Eb, Ef.
  - unfold Accumulating. rewrite Es, Hst. by intros [].
Qed.

Lemma append_loop_Inv (pData : list byte) :
  forall s : JKBMS,
    well_formed s -> Accumulating s -> 4 <= frame s ->
    take 4 (receivedBytes s) = start_sequence ->
    exists s' tr,
      append_loop pData s = Done tt s' tr
      /\ Inv s'
      /\ Forall store_in_frame tr /\ Forall decode_on_full_frame tr.
Proof.
  induction pData as [|b rest IH]; intros s Hwf Hacc H4 Hhdr.
  - exists s, []. split; [done|]. split; [by apply Inv_header|done].
  - cbn [append_loop]. unfold mbind, M_bind, bind, get.
    pose proof (Inv_header s Hwf H4 Hhdr) as HI.
    destruct Hwf as [Hlen Hfr].
    destruct (Z.ltb_spec (frame s) 300) as [Hlt|Hge];
      [|by exists s, []].
    rewrite store_byte_ok by lia. cbn [frame set_buffer].
    set (buf := <[Z.to_nat (frame s) := b]> (receivedBytes s)).
    assert (Hbuf : length buf = 320%nat) by (subst buf; by rewrite length_insert).
    assert (Hhdr' : take 4 buf = start_sequence).
    { subst buf. rewrite take_insert_ge by lia. done. }
    destruct (Z.leb_spec 300 (frame s + 1)) as [Hfull|Hmore].
    + unfold modify at 1 2. cbn [app].
      set (s2 := set_new_data true (set_received false true
                   (set_buffer buf (frame s + 1) s))).
      assert (Hwf2 : well_formed s2) by (split; cbn; [done|lia]).
      destruct (dispatch_cases s2) as [(d & -> & _)| (-> & _)].
      * exists (decoded d s2), [EvStore (frame s); EvDecode d s2].
        split; [done|]. split; [by apply Inv_decoded|].
        split; repeat constructor; cbn; (lia || done).
      * exists s2, [EvStore (frame s)].
        split; [done|]. split.
        { apply Inv_idle; [done|]. by intros []. }
        split; repeat constructor; cbn; lia.
    + destruct (IH (set_buffer buf (frame s + 1) s))
        as (s' & tr & -> & HI' & Hs & Hd);
        [split; cbn; (done || lia) | exact Hacc | cbn; lia | done |].
      exists s', (EvStore (frame s) :: tr).
      split; [done|]. split; [done|].
      split; constructor; cbn; (done || lia).
Qed.

Lemma stores_in_frame (f n : nat) :
  (f + n <= 300)%nat -> Forall store_in_frame (stores f n).
Proof.
  intros H. unfold stores. apply Forall_fmap, Forall_forall.
  intros i Hi%elem_of_seq. cbn. lia.
Qed.

Lemma stores_no_decode (f n : nat) :
  Forall decode_on_full_frame (stores f n).
Proof. unfold stores. apply Forall_fmap, Forall_forall. by intros. Qed.

(** Every call from an object that satisfies the invariant returns,
    keeps the invariant, stores inside the frame only, and decodes full
    frames only. *)
Local Ltac unchanged HI :=
  split; [reflexivity|]; split; [exact HI|]; split; constructor.

Lemma handleNotification_Inv (now : Z) (pData : list byte) (s : JKBMS) :
  Inv s ->
  exists s' tr,
    handleNotification now pData s = Done tt s' tr
    /\ Inv s'
    /\ Forall store_in_frame tr /\ Forall decode_on_full_frame tr.
Proof.
  intros HI.
  destruct (Z.ltb_spec 0 (ignoreNotifyCount s)) as [Hthr|Hthr].
  { rewrite handleNotification_throttled by done.
    eexists _, []. unchanged HI. }
  rewrite handleNotification_pass by done.
  set (s1 := set_lastNotifyTime now s).
  assert (HI1 : Inv s1) by exact HI.
  clearbody s1. clear HI Hthr s.
  destruct (Z.ltb_spec (Z.of_nat (length pData)) 4) as [Hshort|Hlong].
  { unfold reassemble.
    destruct (Z.ltb_spec (Z.of_nat (length pData)) 4); [|lia].
    exists s1, []. unchanged HI1. }
  destruct (is_start_sequence pData) eqn:Hst.
  { destruct HI1 as [[Hlen Hfr] _].
    rewrite reassemble_start by (done || lia).
    set (n := (length pData `min` 300)%nat).
    assert (Hn : (4 <= n <= 300)%nat) by (subst n; lia).
    eexists _, _. split; [done|]. split; [|split].
    - split; [split|]; cbn.
      + rewrite length_app, length_take, length_drop. lia.
      + lia.
      + intros _. split; [lia|].
        rewrite take_app_le by (rewrite length_take; lia).
        rewrite take_take. replace (4 `min` n)%nat with 4%nat by lia.
        apply is_start_sequence_take; [lia|done].
    - apply stores_in_frame. lia.
    - apply stores_no_decode. }
  unfold reassemble.
  destruct (Z.ltb_spec (Z.of_nat (length pData)) 4); [lia|].
  rewrite Hst. unfold mbind, M_bind, bind, get.
  destruct (received_start s1) eqn:Es, (received_complete s1) eqn:Ec;
    cbn [andb negb]; try (exists s1, []; unchanged HI1).
  destruct HI1 as [Hwf Hhdr].
  destruct (Hhdr (conj Es Ec)) as [H4 Hh].
  destruct (append_loop_Inv pData s1 Hwf (conj Es Ec) H4 Hh)
    as (s' & tr & -> & Hrest).
  by exists s', tr.
Qed.

Lemma Inv_new (mac : string) : Inv (JKBMS_new mac).
Proof. apply Inv_idle; [by split|]. by intros []. Qed.

Lemma deliver_Inv (chunks : list (Z * list byte)) :
  forall s : JKBMS,
    Inv s ->
    exists s' tr,
      deliver chunks s = Done tt s' tr
      /\ Inv s'
      /\ Forall store_in_frame tr /\ Forall decode_on_full_frame tr.
Proof.
  induction chunks as [|[now pData] rest IH]; intros s HI.
  - exists s, []. unchanged HI.
  - cbn [deliver]. unfold mbind, M_bind, bind.
    destruct (handleNotification_Inv now pData s HI)
      as (s1 & tr1 & -> & HI1 & Hs1 & Hd1).
    destruct (IH s1 HI1) as (s2 & tr2 & -> & HI2 & Hs2 & Hd2).
    exists s2, (tr1 ++ tr2). split; [done|]. split; [done|].
    split; by apply Forall_app.
Qed.

(** ** The handler never leaves the frame *)

(** C9: for every sequence of calls to handleNotification, with chunks of
    any content and length, delivered to a newly constructed object, every
    call returns without an out-of-bounds store, the cursor [frame] stays
    within 0..300, and every store into [receivedBytes] is at an index
    below 300, inside the 320-byte array. *)
Theorem C9_stores_stay_inside_frame
    (mac : string) (chunks : list (Z * list byte)) :
  exists s tr,
    deliver chunks (JKBMS_new mac) = Done tt s tr
    /\ 0 <= frame s <= 300
    /\ length (receivedBytes s) = Z.to_nat RECEIVED_BYTES_SIZE
    /\ Forall store_in_frame tr.
Proof.
  destruct (deliver_Inv chunks (JKBMS_new mac) (Inv_new mac))
    as (s & tr & Hrun & [[Hlen Hfr] _] & Hst & _).
  by exists s, tr.
Qed.

(** C10: for every sequence of chunk deliveries to a newly constructed
    object, each decoder call (bms_settings, parseData, parseDeviceInfo)
    finds the cursor [frame] equal to 300 and bytes 0-3 of [receivedBytes]
    equal to 0x55 0xAA 0xEB 0x90. *)
Theorem C10_decoders_run_on_full_frames
    (mac : string) (chunks : list (Z * list byte)) :
  exists s tr,
    deliver chunks (JKBMS_new mac) = Done tt s tr
    /\ Forall decode_on_full_frame tr.
Proof.
  destruct (deliver_Inv chunks (JKBMS_new mac) (Inv_new mac))
    as (s & tr & Hrun & _ & _ & Hd).
  by exists s, tr.
Qed.

(** A run in which a decoder is called: the statement above is about
    something that happens. *)
Example decoder_is_called :
  trace_of (handleNotification 2 sample_tail (sample_accumulating x02))
  = [EvStore 299;
     EvDecode Dec_parseData
       (first_entry
          (trace_of (handleNotification 2 sample_tail
                       (sample_accumulating x02))))].
Proof. vm_compute. reflexivity. Qed.

(** ** The throttle *)

Lemma deliver_throttled (chunks : list (Z * list byte)) :
  forall s : JKBMS,
    Z.of_nat (length chunks) <= ignoreNotifyCount s ->
    exists s',
      deliver chunks s = Done tt s' []
      /\ reassembler_unchanged s s' /\ records_unchanged s s'
      /\ new_data s' = new_data s
      /\ ignoreNotifyCount s'
         = ignoreNotifyCount s - Z.of_nat (length chunks).
Proof.
  induction chunks as [|[now pData] rest IH]; intros s Hc.
  - exists s. cbn. repeat split. lia.
  - cbn [deliver]. unfold mbind, M_bind, bind.
    cbn [length] in Hc.
    rewrite handleNotification_throttled by lia.
    destruct (IH (set_ignoreNotifyCount (ignoreNotifyCount s - 1)
                    (set_lastNotifyTime now s)))
      as (s' & -> & Hre & Hrec & Hnd & Hcnt); [cbn; lia|].
    exists s'. split; [done|]. cbn in Hcnt.
    repeat split; try apply Hre; try apply Hrec; try done.
    cbn [length]. lia.
Qed.

(** C3: when a call of handleNotification has run the CellData decoder,
    the counter is 10 on return; each of the next 10 calls, whatever the
    chunk, only decrements the counter (after k <= 10 calls it is 10 - k)
    and leaves the frame buffer, the cursor and the received_start and
    received_complete flags as they were; the 11th call runs the
    reassembler on its chunk. *)
Theorem C3_throttle_after_celldata
    (now0 : Z) (c0 : list byte) (s0 s : JKBMS) (tr0 : list event)
    (entry : JKBMS) :
  handleNotification now0 c0 s0 = Done tt s tr0 ->
  In (EvDecode Dec_parseData entry) tr0 ->
  ignoreNotifyCount s = 10
  /\ forall chunks : list (Z * list byte),
      (length chunks <= 10)%nat ->
      exists s',
        deliver chunks s = Done tt s' []
        /\ reassembler_unchanged s s'
        /\ ignoreNotifyCount s' = 10 - Z.of_nat (length chunks)
        /\ (length chunks = 10%nat ->
            forall (now : Z) (c : list byte),
              handleNotification now c s'
              = reassemble c (set_lastNotifyTime now s')).
Proof.
  intros Hrun Hin.
  destruct (handleNotification_decode _ _ _ _ _ _ _ Hrun Hin) as (-> & _).
  split; [done|]. intros chunks Hlen.
  destruct (deliver_throttled chunks (decoded Dec_parseData entry))
    as (s' & Hd & Hre & _ & _ & Hcnt); [cbn; lia|].
  exists s'. split; [done|]. split; [done|]. split; [exact Hcnt|].
  intros H10 now c. apply handleNotification_pass.
  rewrite Hcnt, H10. cbn. lia.
Qed.

Lemma C3_throttle_after_celldata_witness :
  let s := final_state (handleNotification 2 sample_tail
                          (sample_accumulating x02)) in
  ignoreNotifyCount s = 10
  /\ forall chunks : list (Z * list byte),
      (length chunks <= 10)%nat ->
      exists s',
        deliver chunks s = Done tt s' []
        /\ reassembler_unchanged s s'
        /\ ignoreNotifyCount s' = 10 - Z.of_nat (length chunks)
        /\ (length chunks = 10%nat ->
            forall (now : Z) (c : list byte),
              handleNotification now c s'
              = reassemble c (set_lastNotifyTime now s')).
Proof.
  apply (C3_throttle_after_celldata 2 sample_tail (sample_accumulating x02)
           _ (trace_of (handleNotification 2 sample_tail
                          (sample_accumulating x02)))
           (first_entry (trace_of (handleNotification 2 sample_tail
                                     (sample_accumulating x02))))).
  - vm_compute. reflexivity.
  - vm_compute. right. left. reflexivity.
Defined.

(** C4: when handleNotification completes a frame of type 0x02 and the
    CellData decoder runs, the handler has set new_data before the decoder
    is entered, the decoder clears it again, and on return new_data is
    false and ignoreNotifyCount is 10. *)
Theorem C4_celldata_decode_leaves_new_data_false
    (now : Z) (pData : list byte) (s s' : JKBMS) (tr : list event)
    (entry : JKBMS) :
  handleNotification now pData s = Done tt s' tr ->
  In (EvDecode Dec_parseData entry) tr ->
  byte_at (receivedBytes entry) 4 = 0x02
  /\ new_data entry = true
  /\ new_data s' = false
  /\ ignoreNotifyCount s' = 10.
Proof.
  intros Hrun Hin.
  destruct (handleNotification_decode _ _ _ _ _ _ _ Hrun Hin)
    as (-> & Hnd & _ & _ & _ & Hty).
  done.
Qed.

Lemma C4_celldata_decode_leaves_new_data_false_witness :
  let o := handleNotification 2 sample_tail (sample_accumulating x02) in
  byte_at (receivedBytes (first_entry (trace_of o))) 4 = 0x02
  /\ new_data (first_entry (trace_of o)) = true
  /\ new_data (final_state o) = false
  /\ ignoreNotifyCount (final_state o) = 10.
Proof.
  apply (C4_celldata_decode_leaves_new_data_false
           2 sample_tail (sample_accumulating x02) _
           (trace_of (handleNotification 2 sample_tail
                        (sample_accumulating x02)))).
  - vm_compute. reflexivity.
  - vm_compute. right. left. reflexivity.
Defined.

(** ** Start chunks *)

(** A chunk of at least 4 bytes that begins with the start sequence,
    delivered with the throttle not armed: the cursor is reset, the chunk is
    copied to the beginning of the buffer up to 300 bytes, the flags say
    "started, not complete", and there is no other effect.  The
    reassembler state on entry plays no part. *)
Lemma start_chunk_spec (now : Z) (pData : list byte) (s : JKBMS) :
  length (receivedBytes s) = 320%nat ->
  ignoreNotifyCount s <= 0 ->
  (4 <= length pData)%nat ->
  is_start_sequence pData = true ->
  let n := (length pData `min` 300)%nat in
  handleNotification now pData s
  = Done tt (set_buffer (take n pData ++ drop n (receivedBytes s))
                        (Z.of_nat n)
                        (set_received true false (set_lastNotifyTime now s)))
         (stores 0 n).
Proof.
  intros Hbuf Hthr Hlen Hst n.
  rewrite handleNotification_pass by done.
  by rewrite reassemble_start.
Qed.

Lemma stores_are_stores (f n : nat) : Forall is_store (stores f n).
Proof. unfold stores. apply Forall_fmap, Forall_forall. by intros. Qed.

(** C1: a chunk of length >= 4 that begins with 0x55 0xAA 0xEB 0x90,
    delivered while the reassembler is Idle and the throttle is zero,
    resets the cursor, copies min(length, 300) bytes of the chunk to the
    beginning of the frame buffer, leaves the cursor at that amount and
    enters Accumulating.  The call stores bytes and does nothing else:
    also when the cursor reaches 300 from that single chunk the frame is
    not marked complete and no decoder is called. *)
Theorem C1_start_chunk_is_stored_not_dispatched
    (now : Z) (pData : list byte) (s : JKBMS) :
  length (receivedBytes s) = 320%nat ->
  Idle s ->
  ignoreNotifyCount s = 0 ->
  (4 <= length pData)%nat ->
  is_start_sequence pData = true ->
  let n := (length pData `min` 300)%nat in
  exists s',
    handleNotification now pData s = Done tt s' (stores 0 n)
    /\ Forall is_store (stores 0 n)
    /\ frame s' = Z.of_nat n
    /\ take n (receivedBytes s') = take n pData
    /\ drop n (receivedBytes s') = drop n (receivedBytes s)
    /\ Accumulating s'
    /\ new_data s' = new_data s
    /\ ignoreNotifyCount s' = 0
    /\ records_unchanged s s'.
Proof.
  intros Hbuf _ Hthr Hlen Hst n.
  eexists. split; [apply start_chunk_spec; (done || lia)|].
  assert (Hn : length (take n pData) = n)
    by (rewrite length_take; subst n; lia).
  cbn. repeat split; try done.
  - apply stores_are_stores.
  - by rewrite take_app_length'.
  - by rewrite drop_app_length'.
Qed.

Lemma C1_start_chunk_is_stored_not_dispatched_witness :
  exists s',
    handleNotification 1 sample_frame (JKBMS_new EmptyString)
    = Done tt s' (stores 0 300)
    /\ Forall is_store (stores 0 300)
    /\ frame s' = 300
    /\ take 300 (receivedBytes s') = take 300 sample_frame
    /\ drop 300 (receivedBytes s')
       = drop 300 (receivedBytes (JKBMS_new EmptyString))
    /\ Accumulating s'
    /\ new_data s' = new_data (JKBMS_new EmptyString)
    /\ ignoreNotifyCount s' = 0
    /\ records_unchanged (JKBMS_new EmptyString) s'.
Proof.
  apply (C1_start_chunk_is_stored_not_dispatched
           1 sample_frame (JKBMS_new EmptyString)).
  - reflexivity.
  - left. reflexivity.
  - reflexivity.
  - vm_compute. lia.
  - reflexivity.
Defined.

(** After the whole frame has arrived in one chunk, later chunks that do
    not begin with the start sequence change nothing but the clock
    reading: the frame is not dispatched afterwards either. *)
Example full_frame_in_one_chunk_is_lost :
  let s := final_state (handleNotification 1 sample_frame
                          (JKBMS_new EmptyString)) in
  handleNotification 2 sample_tail s
  = Done tt (set_lastNotifyTime 2 s) [].
Proof. vm_compute. reflexivity. Qed.


(** ** Unknown frame types *)

(** C8: when a call of handleNotification completes a frame (the cursor
    reaches 300) whose type byte at offset 4 is none of 0x01, 0x02, 0x03,
    no decoder is called, the cell-data and settings records keep their
    values (the object has no device-info fields), and the reassembler is
    Idle with the throttle untouched, so that the next chunk beginning
    with the start sequence starts a new frame. *)
Theorem C8_unknown_frame_type_is_dropped
    (now : Z) (pData : list byte) (s s' : JKBMS) (tr : list event) :
  length (receivedBytes s) = 320%nat ->
  handleNotification now pData s = Done tt s' tr ->
  received_complete s = false ->
  received_complete s' = true ->
  byte_at (receivedBytes s') 4 <> 0x01 ->
  byte_at (receivedBytes s') 4 <> 0x02 ->
  byte_at (receivedBytes s') 4 <> 0x03 ->
  frame s' = 300
  /\ Forall is_store tr
  /\ records_unchanged s s'
  /\ Idle s'
  /\ ignoreNotifyCount s' = ignoreNotifyCount s
  /\ forall (now' : Z) (c : list byte),
      (4 <= length c)%nat ->
      is_start_sequence c = true ->
      let n := (length c `min` 300)%nat in
      handleNotification now' c s'
      = Done tt (set_buffer (take n c ++ drop n (receivedBytes s'))
                            (Z.of_nat n)
                            (set_received true false
                               (set_lastNotifyTime now' s')))
             (stores 0 n).
Proof.
  intros Hbuf Hrun Hc Hc' H1 H2 H3.
  destruct (Z.ltb_spec 0 (ignoreNotifyCount s)) as [Hthr|Hthr].
  { rewrite handleNotification_throttled in Hrun by done.
    injection Hrun as <- <-. cbn in Hc'. congruence. }
  rewrite handleNotification_pass in Hrun by done.
  apply reassemble_shape in Hrun
    as [[_ Himp]|(buf & tr1 & dtr & Hlen & _ & _ & Hd & -> & Htr)].
  { specialize (Himp Hc'). cbn in Himp. congruence. }
  set (s1 := set_new_data true (set_received false true
               (set_buffer buf 300 (set_lastNotifyTime now s)))) in *.
  destruct (dispatch_cases s1) as [(d & Hd' & Hty)|(Hd' & _)];
    rewrite Hd' in Hd; injection Hd as <- <-.
  { destruct (decoded_buffer d s1) as (Eb & _).
    rewrite Eb in H1, H2, H3. destruct d; congruence. }
  rewrite app_nil_r.
  repeat split; try done.
  - by right.
  - intros now' c Hlc Hst n.
    apply start_chunk_spec; try done.
    cbn. cbn in Hlen. congruence.
Qed.

Lemma C8_unknown_frame_type_is_dropped_witness :
  let s := sample_accumulating x07 in
  let o := handleNotification 2 sample_tail s in
  frame (final_state o) = 300
  /\ Forall is_store (trace_of o)
  /\ records_unchanged s (final_state o)
  /\ Idle (final_state o)
  /\ ignoreNotifyCount (final_state o) = ignoreNotifyCount s
  /\ forall (now' : Z) (c : list byte),
      (4 <= length c)%nat ->
      is_start_sequence c = true ->
      let n := (length c `min` 300)%nat in
      handleNotification now' c (final_state o)
      = Done tt (set_buffer (take n c ++ drop n (receivedBytes (final_state o)))
                            (Z.of_nat n)
                            (set_received true false
                               (set_lastNotifyTime now' (final_state o))))
             (stores 0 n).
Proof.
  apply (C8_unknown_frame_type_is_dropped 2 sample_tail
           (sample_accumulating x07)).
  - reflexivity.
  - vm_compute. reflexivity.
  - reflexivity.
  - reflexivity.
  - vm_compute. discriminate.
  - vm_compute. discriminate.
  - vm_compute. discriminate.
Defined.

(** ** Checksum and command frame *)

Lemma crc_fold (l : list byte) :
  forall acc : byte,
    byte_to_Z (fold_left (fun c b => u8 (byte_to_Z c + byte_to_Z b)) l acc)
    = (byte_to_Z acc + byte_sum l) mod 256.
Proof.
  induction l as [|b l IH]; intros acc; cbn [fold_left byte_sum foldr].
  - rewrite Z.add_0_r. symmetry. apply Z.mod_small, byte_to_Z_range.
  - rewrite IH, byte_to_Z_u8, Z.add_mod_idemp_l by lia.
    f_equal. fold (byte_sum l). lia.
Qed.

(** The checksum is the sum of the bytes modulo 256. *)
Lemma crc_sum (data : list byte) (len : nat) :
  byte_to_Z (crc data len) = byte_sum (take len data) mod 256.
Proof. unfold crc. by rewrite crc_fold. Qed.

Lemma little_endian_bytes (value : Z) :
  0 <= value < 2 ^ 32 ->
  byte_to_Z (u8 (Z.shiftr value 0))
  + 2 ^ 8 * byte_to_Z (u8 (Z.shiftr value 8))
  + 2 ^ 16 * byte_to_Z (u8 (Z.shiftr value 16))
  + 2 ^ 24 * byte_to_Z (u8 (Z.shiftr value 24)) = value.
Proof.
  intros H. rewrite !byte_to_Z_u8, !Z.shiftr_div_pow2 by lia.
  change (2 ^ 0) with 1. change (2 ^ 8) with 256.
  change (2 ^ 16) with 65536. change (2 ^ 24) with 16777216.
  change (2 ^ 32) with 4294967296 in H.
  Z.div_mod_to_equations. lia.
Qed.

(** C5 (as stated): build(0x97, 0, 0) would end in the checksum byte
    0x31.  The frame the code builds ends in 0x11. *)
Lemma C5_counterexample :
  writeRegister x97 0 x00
  <> [xaa; x55; x90; xeb; x97; x00; x00; x00; x00; x00]
     ++ replicate 9 x00 ++ [x31].
Proof. vm_compute. discriminate. Qed.

(** C5 (amended): for every address, length field and 32-bit value the
    built frame is 0xAA 0x55 0x90 0xEB, the address, the length field, the
    four bytes of the value in little-endian order, nine zero bytes, and
    as byte 19 the sum of bytes 0-18 modulo 256; for address 0x97, value
    0 and length field 0 that is AA 55 90 EB 97 00 00 00 00 00, nine 00
    bytes, and the checksum byte 0x11. *)
Theorem C5_command_frame_layout (address len : byte) (value : Z) :
  0 <= value < 2 ^ 32 ->
  let b0 := u8 (Z.shiftr value 0) in
  let b1 := u8 (Z.shiftr value 8) in
  let b2 := u8 (Z.shiftr value 16) in
  let b3 := u8 (Z.shiftr value 24) in
  (exists ck : byte,
      writeRegister address value len
      = [xaa; x55; x90; xeb; address; len; b0; b1; b2; b3]
        ++ replicate 9 x00 ++ [ck]
      /\ byte_to_Z ck
         = byte_sum (take 19 (writeRegister address value len)) mod 256)
  /\ byte_to_Z b0 + 2 ^ 8 * byte_to_Z b1 + 2 ^ 16 * byte_to_Z b2
     + 2 ^ 24 * byte_to_Z b3 = value
  /\ writeRegister x97 0 x00
     = [xaa; x55; x90; xeb; x97; x00; x00; x00; x00; x00]
       ++ replicate 9 x00 ++ [x11].
Proof.
  intros Hv b0 b1 b2 b3. split; [|split].
  - eexists. split; [reflexivity|]. by rewrite crc_sum.
  - by apply little_endian_bytes.
  - reflexivity.
Qed.

Lemma C5_command_frame_layout_witness :
  (exists ck : byte,
      writeRegister x1d 1 x04
      = [xaa; x55; x90; xeb; x1d; x04; x01; x00; x00; x00]
        ++ replicate 9 x00 ++ [ck]
      /\ byte_to_Z ck
         = byte_sum (take 19 (writeRegister x1d 1 x04)) mod 256)
  /\ byte_to_Z x01 + 2 ^ 8 * byte_to_Z x00 + 2 ^ 16 * byte_to_Z x00
     + 2 ^ 24 * byte_to_Z x00 = 1
  /\ writeRegister x97 0 x00
     = [xaa; x55; x90; xeb; x97; x00; x00; x00; x00; x00]
       ++ replicate 9 x00 ++ [x11].
Proof.
  apply (C5_command_frame_layout x1d x04 1). lia.
Defined.

(** ** CellData fields *)

Lemma deci_neg (z : Z) : z < 0 -> (deci z < 0)%Q.
Proof. intros H. unfold deci, Qlt, Qmult, inject_Z. cbn. lia. Qed.

Lemma deci_nonneg (z : Z) : 0 <= z -> (0 <= deci z)%Q.
Proof. intros H. unfold deci, Qle, Qmult, inject_Z. cbn. lia. Qed.

Lemma high_nibble (b : byte) :
  Z.land (byte_to_Z b) 0xF0 = 16 * (byte_to_Z b / 16).
Proof. destruct b; reflexivity. Qed.

Lemma high_nibble_at (rb : list byte) (i : nat) :
  Z.land (byte_at rb i) 0xF0 = 16 * (byte_at rb i / 16).
Proof. apply high_nibble. Qed.

(** With the high byte 0xFF the 32-bit pattern the code builds is the
    sign extension of the 16-bit pair. *)
Lemma sign_extension_ff (b : byte) :
  Z.lor (Z.lor (Z.lor (int32 (Z.shiftl 0xFF 24)) (Z.shiftl 0xFF 16))
               (Z.shiftl 0xFF 8))
        (byte_to_Z b)
  = sign_extend16 (Z.lor (Z.shiftl 0xFF 8) (byte_to_Z b))
  /\ sign_extend16 (Z.lor (Z.shiftl 0xFF 8) (byte_to_Z b)) < 0.
Proof. destruct b; split; reflexivity. Qed.

Lemma temperature_raw_spec (rb : list byte) (i : nat) :
  let lo := byte_at rb i in
  let hi := byte_at rb (i + 1) in
  let pair := Z.lor (Z.shiftl hi 8) lo in
  (hi = 0xFF ->
   temperature_raw rb i = sign_extend16 pair /\ sign_extend16 pair < 0)
  /\ (hi <> 0xFF -> temperature_raw rb i = pair /\ 0 <= pair).
Proof.
  intros lo hi pair. subst lo hi pair. unfold temperature_raw, le16. split.
  - intros ->. cbn [Z.eqb Pos.eqb]. unfold byte_at.
    apply sign_extension_ff.
  - intros Hne.
    destruct (Z.eqb_spec (byte_at rb (i + 1)) 0xFF); [done|].
    split; [done|]. apply Z.lor_nonneg. split.
    + apply Z.shiftl_nonneg, byte_to_Z_range.
    + apply byte_to_Z_range.
Qed.

(** C6: in the CellData decoder, with lo = byte 170 and hi = byte 171 of
    the frame: if the high nibble of hi is 0x0 then Balance_Curr is
    (hi << 8 | lo) * 0.001; if it is 0xF then Balance_Curr is
    ((hi & 0x0F) << 8 | lo) * -0.001; for any other high nibble
    Balance_Curr keeps the value it had.  Bytes 0x64, 0x00 give +0.100 and
    bytes 0x64, 0xF0 give -0.100. *)
Theorem C6_balance_current (s : JKBMS) :
  let lo := byte_at (receivedBytes s) 170 in
  let hi := byte_at (receivedBytes s) 171 in
  let cur := Balance_Curr (bms_data (parseData s)) in
  (hi / 16 = 0x0 ->
   cur = (inject_Z (Z.lor (Z.shiftl hi 8) lo) * (1 # 1000))%Q)
  /\ (hi / 16 = 0xF ->
      cur = (inject_Z (Z.lor (Z.shiftl (Z.land hi 0x0F) 8) lo)
             * (-1 # 1000))%Q)
  /\ (hi / 16 <> 0x0 -> hi / 16 <> 0xF ->
      cur = Balance_Curr (bms_data s))
  /\ (lo = 0x64 -> hi = 0x00 -> (cur == 100 # 1000)%Q)
  /\ (lo = 0x64 -> hi = 0xF0 -> (cur == -100 # 1000)%Q).
Proof.
  intros lo hi cur. subst lo hi cur.
  unfold parseData.
  cbn [bms_data set_bms_data receivedBytes set_ignoreNotifyCount
       set_new_data Balance_Curr].
  rewrite !high_nibble_at.
  set (hi := byte_at (receivedBytes s) 171).
  set (lo := byte_at (receivedBytes s) 170).
  assert (Hr : 0 <= hi < 256) by apply byte_to_Z_range.
  assert (Hn : 0 <= hi / 16 < 16) by (Z.div_mod_to_equations; lia).
  repeat split.
  - intros H0. rewrite H0. reflexivity.
  - intros HF. rewrite HF. reflexivity.
  - intros H0 HF.
    destruct (Z.eqb_spec (16 * (hi / 16)) 0x0); [lia|].
    destruct (Z.eqb_spec (16 * (hi / 16)) 0xF0); [lia|]. reflexivity.
  - intros -> ->. reflexivity.
  - intros -> ->. reflexivity.
Qed.

Lemma C6_balance_current_witness :
  (Balance_Curr (bms_data (parseData (sample_pair 170 x64 x00)))
   == 100 # 1000)%Q
  /\ (Balance_Curr (bms_data (parseData (sample_pair 170 x64 xf0)))
      == -100 # 1000)%Q
  /\ Balance_Curr (bms_data (parseData (sample_pair 170 x64 x80)))
     = Balance_Curr (bms_data (sample_pair 170 x64 x80)).
Proof.
  split; [|split].
  - apply (C6_balance_current (sample_pair 170 x64 x00)); reflexivity.
  - apply (C6_balance_current (sample_pair 170 x64 xf0)); reflexivity.
  - apply (C6_balance_current (sample_pair 170 x64 x80));
      vm_compute; discriminate.
Defined.

(** C7: in the CellData decoder the MOS temperature (bytes 144-145) and
    the battery temperatures T1 (bytes 162-163) and T2 (bytes 164-165) are
    decoded alike: if the high byte is exactly 0xFF the 16-bit pair is
    sign-extended (the value is negative) and scaled by 0.1; for any other
    high byte, 0x80-0xFE included, the pair is taken as a non-negative
    16-bit value and scaled by 0.1.  Bytes 0x38, 0xFF decode to -20.0. *)
Theorem C7_temperatures (s : JKBMS) (i : nat) (field : CellData -> Q) :
  In (i, field)
     [(144%nat, MOS_Temp); (162%nat, Battery_T1); (164%nat, Battery_T2)] ->
  let lo := byte_at (receivedBytes s) i in
  let hi := byte_at (receivedBytes s) (i + 1) in
  let pair := Z.lor (Z.shiftl hi 8) lo in
  let t := field (bms_data (parseData s)) in
  (hi = 0xFF ->
   t = (inject_Z (sign_extend16 pair) * (1 # 10))%Q /\ (t < 0)%Q)
  /\ (hi <> 0xFF ->
      t = (inject_Z pair * (1 # 10))%Q /\ (0 <= t)%Q)
  /\ (lo = 0x38 -> hi = 0xFF -> (t == -20)%Q).
Proof.
  intros Hin lo hi pair t.
  assert (Et : t = deci (temperature_raw (receivedBytes s) i)).
  { subst t. destruct Hin as [[= <- <-]|[[= <- <-]|[[= <- <-]|[]]]];
      reflexivity. }
  destruct (temperature_raw_spec (receivedBytes s) i) as [Hff Hpos].
  fold lo hi pair in Hff, Hpos.
  split; [|split].
  - intros H. destruct (Hff H) as [E Hneg]. rewrite Et, E.
    split; [reflexivity|]. by apply deci_neg.
  - intros H. destruct (Hpos H) as [E Hnn]. rewrite Et, E.
    split; [reflexivity|]. by apply deci_nonneg.
  - intros Hlo Hhi. destruct (Hff Hhi) as [E _]. rewrite Et, E.
    subst pair. rewrite Hlo, Hhi. reflexivity.
Qed.

Lemma C7_temperatures_witness :
  (MOS_Temp (bms_data (parseData (sample_pair 144 x38 xff))) == -20)%Q
  /\ (Battery_T1 (bms_data (parseData (sample_pair 162 x38 xff))) == -20)%Q
  /\ (Battery_T2 (bms_data (parseData (sample_pair 164 x38 xff))) == -20)%Q
  /\ (0 <= Battery_T1 (bms_data (parseData (sample_pair 162 x38 xfe))))%Q.
Proof.
  split; [|split; [|split]].
  - apply (C7_temperatures (sample_pair 144 x38 xff) 144 MOS_Temp);
      [left; reflexivity | reflexivity | reflexivity].
  - apply (C7_temperatures (sample_pair 162 x38 xff) 162 Battery_T1);
      [right; left; reflexivity | reflexivity | reflexivity].
  - apply (C7_temperatures (sample_pair 164 x38 xff) 164 Battery_T2);
      [right; right; left; reflexivity | reflexivity | reflexivity].
  - apply (C7_temperatures (sample_pair 162 x38 xfe) 162 Battery_T1);
      [right; left; reflexivity | vm_compute; discriminate].
Defined.

(** * Reassembly of a frame from its chunks *)

Lemma dispatch_eq (s : JKBMS) :
  dispatch s = Done tt (dispatched s) (dispatch_events s).
Proof.
  unfold dispatch, dispatched, dispatch_events, frame_decoder,
    mbind, M_bind, bind, get.
  repeat (destruct (_ =? _); [by rewrite run_decoder_eq|]).
  reflexivity.
Qed.

Lemma stores_app (f n m : nat) :
  stores f n ++ stores (f + n) m = stores f (n + m).
Proof. unfold stores. by rewrite seq_app, fmap_app. Qed.

Lemma blit_blit (f : nat) (a b buf : list byte) :
  (f + length a + length b <= length buf)%nat ->
  blit (f + length a) b (blit f a buf) = blit f (a ++ b) buf.
Proof.
  intros H. unfold blit.
  rewrite take_app_ge by (rewrite length_take; lia).
  rewrite length_take_le by lia.
  replace (f + length a - f)%nat with (length a) by lia.
  rewrite take_app_length.
  rewrite !drop_app_ge by (rewrite ?length_take; lia).
  rewrite length_take_le by lia.
  rewrite drop_drop, length_app, <- !app_assoc.
  do 3 f_equal. f_equal. lia.
Qed.

(** The loop of the continuation branch, exactly: either the chunk fits
    below the 300th byte and is appended, or its first [300 - f] bytes
    fill the frame, which is dispatched; the rest of the chunk is not
    looked at. *)
Lemma append_loop_spec (pData : list byte) :
  forall (s : JKBMS) (f : nat),
    frame s = Z.of_nat f -> (f < 300)%nat ->
    length (receivedBytes s) = 320%nat ->
    append_loop pData s
    = if (f + length pData <? 300)%nat then
        Done tt (set_buffer (blit f pData (receivedBytes s))
                            (Z.of_nat (f + length pData)) s)
             (stores f (length pData))
      else
        let e := completed (blit f (take (300 - f) pData) (receivedBytes s))
                           s in
        Done tt (dispatched e) (stores f (300 - f) ++ dispatch_events e).
Proof.
  induction pData as [|b rest IH]; intros s f Hf Hlt Hlen.
  - cbn [length]. rewrite Nat.add_0_r.
    destruct (Nat.ltb_spec f 300); [|lia].
    cbn. by rewrite blit_nil, <- Hf, set_buffer_same.
  - cbn [append_loop]. unfold mbind, M_bind, bind, get.
    destruct (Z.ltb_spec (frame s) 300); [|lia].
    rewrite store_byte_ok by lia. cbn [frame set_buffer].
    rewrite Hf, Nat2Z.id.
    destruct (Z.leb_spec 300 (Z.of_nat f + 1)) as [Hfull|Hmore].
    + assert (f = 299%nat) as -> by lia.
      cbn [length]. destruct (Nat.ltb_spec (299 + S (length rest)) 300);
        [lia|].
      unfold modify at 1 2. rewrite dispatch_eq. cbn [app].
      change (300 - 299)%nat with 1%nat. cbn [take].
      rewrite <- (blit_cons 299 b []) by lia. rewrite blit_nil.
      reflexivity.
    + rewrite (IH _ (S f)); cbn [frame receivedBytes set_buffer];
        [|lia|lia|by rewrite length_insert].
      cbn [length].
      replace (f + S (length rest) <? 300)%nat
        with (S f + length rest <? 300)%nat by (f_equal; lia).
      destruct (S f + length rest <? 300)%nat.
      * rewrite blit_cons by lia. rewrite set_buffer_twice. cbn [app].
        rewrite stores_cons. do 2 f_equal. lia.
      * replace (300 - f)%nat with (S (300 - S f)) by lia.
        cbn [take]. rewrite blit_cons by lia.
        unfold completed. rewrite set_buffer_twice. cbn [app].
        rewrite <- stores_cons. reflexivity.
Qed.

Lemma handleNotification_continue (now : Z) (c : list byte) (s : JKBMS) :
  ignoreNotifyCount s <= 0 ->
  Accumulating s ->
  continuation (now, c) ->
  handleNotification now c s = append_loop c (set_lastNotifyTime now s).
Proof.
  intros Hthr [Hs Hc] [Hlen Hst]. cbn in Hlen, Hst.
  rewrite handleNotification_pass by done. unfold reassemble.
  destruct (Z.ltb_spec (Z.of_nat (length c)) 4); [lia|].
  rewrite Hst. unfold mbind, M_bind, bind, get.
  cbn [received_start received_complete set_lastNotifyTime].
  rewrite Hs, Hc. cbn [andb negb].
  by destruct (append_loop c _).
Qed.



Lemma deliver_app (a b : list (Z * list byte)) (s : JKBMS) :
  deliver (a ++ b) s
  = match deliver a s with
    | Done _ s1 tr1 =>
        match deliver b s1 with
        | Done _ s2 tr2 => Done tt s2 (tr1 ++ tr2)
        | OutOfBounds i => OutOfBounds i
        end
    | OutOfBounds i => OutOfBounds i
    end.
Proof.
  revert s. induction a as [|[now c] a IH]; intros s.
  - cbn. by destruct (deliver b s) as [[] ? ?|].
  - cbn [app deliver]. unfold mbind, M_bind, bind.
    destruct (handleNotification now c s) as [[] s1 tr1|]; [|done].
    rewrite IH. destruct (deliver a s1) as [[] s2 tr2|]; [|done].
    destruct (deliver b s2) as [[] s3 tr3|]; [|done].
    by rewrite app_assoc.
Qed.

Lemma set_clock_same (s : JKBMS) :
  set_buffer (receivedBytes s) (frame s)
    (set_lastNotifyTime (lastNotifyTime s) s) = s.
Proof. by destruct s. Qed.

Lemma set_buffer_clock (b1 b2 : list byte) (f1 f2 t1 t2 : Z) (s : JKBMS) :
  set_buffer b2 f2
    (set_lastNotifyTime t2 (set_buffer b1 f1 (set_lastNotifyTime t1 s)))
  = set_buffer b2 f2 (set_lastNotifyTime t2 s).
Proof. reflexivity. Qed.

(** Chunks that fit below the 300th byte are appended one after the
    other. *)
Lemma deliver_accumulate (mids : list (Z * list byte)) :
  forall (s : JKBMS) (f : nat),
    length (receivedBytes s) = 320%nat ->
    ignoreNotifyCount s <= 0 ->
    Accumulating s ->
    frame s = Z.of_nat f ->
    Forall continuation mids ->
    (f + length (chunk_bytes mids) < 300)%nat ->
    deliver mids s
    = Done tt (set_buffer (blit f (chunk_bytes mids) (receivedBytes s))
                          (Z.of_nat (f + length (chunk_bytes mids)))
                          (set_lastNotifyTime
                             (last_clock mids (lastNotifyTime s)) s))
           (stores f (length (chunk_bytes mids))).
Proof.
  induction mids as [|[now c] rest IH]; intros s f Hbuf Hthr Hacc Hf Hall Hfit.
  - cbn. rewrite blit_nil, Nat.add_0_r, <- Hf. by rewrite set_clock_same.
  - apply Forall_cons in Hall as [Hc Hall].
    unfold chunk_bytes in *. cbn [fmap list_fmap concat snd] in *.
    rewrite length_app in *.
    cbn [deliver]. unfold mbind, M_bind, bind.
    rewrite handleNotification_continue by done.
    rewrite (append_loop_spec c _ f) by (done || lia).
    destruct (Nat.ltb_spec (f + length c) 300); [|lia].
    cbn [receivedBytes set_lastNotifyTime].
    rewrite (IH _ (f + length c)%nat); try done; cbn; try lia.
    + rewrite blit_blit by (rewrite Hbuf; lia).
      rewrite stores_app, set_buffer_clock. cbn [foldl fst].
      do 2 f_equal. lia.
    + by rewrite length_blit by lia.
Qed.

Lemma completed_time (buf : list byte) (t : Z) (s : JKBMS) :
  completed buf (set_lastNotifyTime t s)
  = set_lastNotifyTime t (completed buf s).
Proof. reflexivity. Qed.

(** A frame delivered in pieces, exactly. *)
Lemma deliver_frame_exact
    (s : JKBMS) (now0 : Z) (c0 : list byte) (mids : list (Z * list byte))
    (nowl : Z) (cl : list byte) :
  length (receivedBytes s) = 320%nat ->
  ignoreNotifyCount s <= 0 ->
  (4 <= length c0)%nat ->
  is_start_sequence c0 = true ->
  Forall continuation mids ->
  continuation (nowl, cl) ->
  let body := c0 ++ chunk_bytes mids in
  (length body < 300)%nat ->
  (300 <= length body + length cl)%nat ->
  let e := completed (take 300 (body ++ cl) ++ drop 300 (receivedBytes s))
                     (set_lastNotifyTime nowl s) in
  deliver ((now0, c0) :: mids ++ [(nowl, cl)]) s
  = Done tt (dispatched e) (stores 0 300 ++ dispatch_events e).
Proof.
  intros Hbuf Hthr Hl0 Hst Hmids Hlast body Hlt Hge e.
  subst body. rewrite length_app in Hlt, Hge.
  set (n0 := length c0) in *. set (nm := length (chunk_bytes mids)) in *.
  cbn [deliver]. unfold mbind, M_bind, bind.
  rewrite start_chunk_spec by done. fold n0.
  replace (n0 `min` 300)%nat with n0 by lia.
  replace (take n0 c0) with c0 by (symmetry; apply firstn_all).
  change (c0 ++ drop n0 (receivedBytes s))
    with (blit 0 c0 (receivedBytes s)).
  set (b1 := blit 0 c0 (receivedBytes s)).
  assert (Hb1 : length b1 = 320%nat)
    by (subst b1; rewrite length_blit; cbn; lia).
  rewrite deliver_app.
  rewrite (deliver_accumulate mids _ n0); try done.
  cbn [receivedBytes set_buffer]. fold nm.
  set (b2 := blit n0 (chunk_bytes mids) b1).
  assert (Hb2 : length b2 = 320%nat)
    by (subst b2; rewrite length_blit; lia).
  cbn [deliver]. unfold mbind, M_bind, bind.
  rewrite handleNotification_continue; [|done|done|done].
  rewrite (append_loop_spec cl _ (n0 + nm)); [|done|lia|done].
  destruct (Nat.ltb_spec (n0 + nm + length cl) 300); [lia|].
  cbv zeta. cbn [receivedBytes set_buffer set_lastNotifyTime].
  assert (Hbytes : blit (n0 + nm) (take (300 - (n0 + nm)) cl) b2
                   = take 300 ((c0 ++ chunk_bytes mids) ++ cl)
                     ++ drop 300 (receivedBytes s)).
  { assert (HX : length (take (300 - (n0 + nm)) cl) = (300 - (n0 + nm))%nat)
      by (rewrite length_take; lia).
    subst b2. unfold nm at 1.
    rewrite blit_blit by (rewrite Hb1, HX; fold nm; lia).
    subst b1. change n0 with (0 + length c0)%nat at 1.
    rewrite blit_blit
      by (rewrite Hbuf, length_app, HX; fold n0 nm; cbn; lia).
    unfold blit. cbn [take app Nat.add].
    rewrite !length_app, HX. fold n0 nm.
    rewrite (take_app_ge _ cl) by (rewrite length_app; fold n0 nm; lia).
    rewrite length_app. fold n0 nm.
    replace (n0 + (nm + (300 - (n0 + nm))))%nat with 300%nat by lia.
    by rewrite <- !app_assoc. }
  rewrite Hbytes. fold e.
  change (completed _ _) with e.
  unfold mret, M_ret, ret. rewrite app_nil_r, !app_assoc.
  change n0 with (0 + n0)%nat at 2. rewrite (stores_app 0).
  change (0 + n0 + nm)%nat with (n0 + nm)%nat. rewrite (stores_app 0).
  do 3 f_equal. lia.
Qed.

Lemma dispatched_buffer (s : JKBMS) :
  receivedBytes (dispatched s) = receivedBytes s
  /\ frame (dispatched s) = frame s
  /\ received_start (dispatched s) = received_start s
  /\ received_complete (dispatched s) = received_complete s.
Proof.
  unfold dispatched. destruct (frame_decoder _); [apply decoded_buffer|done].
Qed.



Lemma decoded_time (d : Decoder) (t : Z) (s : JKBMS) :
  decoded d (set_lastNotifyTime t s) = set_lastNotifyTime t (decoded d s).
Proof.
  destruct d; try reflexivity.
  cbn. unfold parseDeviceInfo. cbn. by destruct (frame s <? 134).
Qed.

Lemma dispatched_time (t : Z) (s : JKBMS) :
  dispatched (set_lastNotifyTime t s) = set_lastNotifyTime t (dispatched s).
Proof.
  unfold dispatched. cbn [receivedBytes set_lastNotifyTime].
  destruct (frame_decoder (receivedBytes s)); [apply decoded_time|done].
Qed.

Lemma set_lastNotifyTime_twice (t1 t2 : Z) (s : JKBMS) :
  set_lastNotifyTime t2 (set_lastNotifyTime t1 s) = set_lastNotifyTime t2 s.
Proof. reflexivity. Qed.



(** * What a single call can and cannot do *)

(** X3: with the throttle not armed, a chunk shorter than four bytes (in
    any reassembler state, Accumulating included), and a chunk that does
    not begin with the start sequence arriving while Idle, are dropped:
    the call records the clock reading and changes nothing else. *)
Theorem X3_malformed_chunk_dropped
    (now : Z) (pData : list byte) (s : JKBMS) :
  ignoreNotifyCount s <= 0 ->
  (length pData < 4)%nat \/ (Idle s /\ is_start_sequence pData = false) ->
  handleNotification now pData s = Done tt (set_lastNotifyTime now s) [].
Proof.
  intros Hthr Hcase. rewrite handleNotification_pass by done.
  unfold reassemble.
  destruct (Z.ltb_spec (Z.of_nat (length pData)) 4) as [|Hlong]; [done|].
  destruct Hcase as [Hshort|[Hidle Hst]]; [lia|].
  rewrite Hst. unfold mbind, M_bind, bind, get.
  cbn [received_start received_complete set_lastNotifyTime].
  by destruct Hidle as [-> | ->]; [|destruct (received_start s)].
Qed.

Lemma X3_malformed_chunk_dropped_witness :
  handleNotification 2 [x01; x02; x03] (sample_accumulating x02)
  = Done tt (set_lastNotifyTime 2 (sample_accumulating x02)) []
  /\ handleNotification 2 sample_tail (JKBMS_new EmptyString)
     = Done tt (set_lastNotifyTime 2 (JKBMS_new EmptyString)) [].
Proof.
  split.
  - apply (X3_malformed_chunk_dropped 2 [x01; x02; x03]
             (sample_accumulating x02)).
    + vm_compute. discriminate.
    + left. vm_compute. lia.
  - apply (X3_malformed_chunk_dropped 2 sample_tail
             (JKBMS_new EmptyString)).
    + vm_compute. discriminate.
    + right. split; [by left | reflexivity].
Defined.

(** The ways out of the reassembler, for an arbitrary object. *)
Lemma reassemble_cases (pData : list byte) (s s' : JKBMS) (tr : list event) :
  reassemble pData s = Done tt s' tr ->
  (Forall is_store tr
   /\ exists buf fr,
       s' = set_buffer buf fr s
       \/ s' = set_buffer buf fr (set_received true false s))
  \/ (exists buf tr1,
        Accumulating s
        /\ s' = dispatched (completed buf s)
        /\ tr = tr1 ++ dispatch_events (completed buf s)
        /\ Forall is_store tr1).
Proof.
  unfold reassemble.
  destruct (Z.of_nat (length pData) <? 4).
  { intros [= <- <-]. left. split; [done|].
    exists (receivedBytes s), (frame s). left. by rewrite set_buffer_same. }
  destruct (is_start_sequence pData).
  { unfold mbind, M_bind, bind, modify at 1 2.
    destruct (store_loop pData _) as [[] s1 tr1|] eqn:E; [|done].
    intros [= <- <-].
    apply store_loop_shape in E as (buf & fr & _ & -> & Htr).
    left. split; [done|]. exists buf, fr. by right. }
  unfold mbind, M_bind, bind, get.
  destruct (received_start s) eqn:Es, (received_complete s) eqn:Ec;
    cbn [andb negb];
    try (intros [= <- <-]; left; split; [done|];
         exists (receivedBytes s), (frame s); left;
         by rewrite set_buffer_same).
  destruct (append_loop pData s) as [[] s1 tr1|] eqn:E; [|done].
  intros [= <- <-].
  apply append_loop_shape in E
    as [(buf & fr & _ & -> & Htr)|(buf & tr1' & dtr & _ & Hd & -> & Htr)].
  - left. split; [done|]. exists buf, fr. by left.
  - right. exists buf, tr1'. fold (completed buf s) in Hd.
    rewrite dispatch_eq in Hd. injection Hd as <- <-. done.
Qed.

Lemma dispatch_events_at_most_one (s : JKBMS) :
  dispatch_events s = []
  \/ exists d, frame_decoder (receivedBytes s) = Some d
               /\ dispatch_events s = [EvDecode d s]
               /\ dispatched s = decoded d s.
Proof.
  unfold dispatch_events, dispatched.
  destruct (frame_decoder (receivedBytes s)) as [d|]; [right|by left].
  by exists d.
Qed.

(** X4: every call that returns has recorded its clock reading in
    lastNotifyTime, on every path (throttled, dropped, stored, decoded),
    and has left targetMAC alone. *)
Theorem X4_clock_recorded_on_every_path
    (now : Z) (pData : list byte) (s s' : JKBMS) (tr : list event) :
  handleNotification now pData s = Done tt s' tr ->
  lastNotifyTime s' = now /\ targetMAC s' = targetMAC s.
Proof.
  intros Hrun.
  destruct (Z.ltb_spec 0 (ignoreNotifyCount s)) as [Hthr|Hthr].
  { rewrite handleNotification_throttled in Hrun by done.
    by injection Hrun as <- <-. }
  rewrite handleNotification_pass in Hrun by done.
  apply reassemble_cases in Hrun
    as [(_ & buf & fr & [-> | ->])|(buf & tr1 & _ & -> & _)]; try done.
  rewrite completed_time, dispatched_time. cbn.
  unfold dispatched. by destruct (frame_decoder _) as [[]|].
Qed.

Lemma X4_clock_recorded_on_every_path_witness :
  lastNotifyTime
    (final_state (handleNotification 2 sample_tail (sample_accumulating x02)))
  = 2
  /\ targetMAC
       (final_state (handleNotification 2 sample_tail
                       (sample_accumulating x02)))
     = targetMAC (sample_accumulating x02).
Proof.
  apply (X4_clock_recorded_on_every_path 2 sample_tail
           (sample_accumulating x02) _
           (trace_of (handleNotification 2 sample_tail
                        (sample_accumulating x02)))).
  vm_compute. reflexivity.
Defined.

(** X6: a call runs at most one decoder, and runs it last.  Without a
    decoder call the cell-data and settings records are as before; with
    one, the call ends in the object the decoder returned, and the object
    the decoder found had the records of the object the call began
    with. *)
Theorem X6_records_change_only_by_decoder
    (now : Z) (pData : list byte) (s s' : JKBMS) (tr : list event) :
  handleNotification now pData s = Done tt s' tr ->
  (Forall is_store tr /\ records_unchanged s s')
  \/ (exists d entry tr1,
        tr = tr1 ++ [EvDecode d entry]
        /\ Forall is_store tr1
        /\ records_unchanged s entry
        /\ s' = decoded d entry).
Proof.
  intros Hrun.
  destruct (Z.ltb_spec 0 (ignoreNotifyCount s)) as [Hthr|Hthr].
  { rewrite handleNotification_throttled in Hrun by done.
    injection Hrun as <- <-. left. by split. }
  rewrite handleNotification_pass in Hrun by done.
  apply reassemble_cases in Hrun
    as [(Htr & buf & fr & [-> | ->])|(buf & tr1 & _ & -> & -> & Htr)].
  - left. by split.
  - left. by split.
  - destruct (dispatch_events_at_most_one
                (completed buf (set_lastNotifyTime now s)))
      as [E|(d & _ & E & Ed)]; rewrite E.
    + left. rewrite app_nil_r. split; [done|].
      unfold dispatch_events, dispatched in *.
      by destruct (frame_decoder _).
    + right. exists d, (completed buf (set_lastNotifyTime now s)), tr1.
      by rewrite Ed.
Qed.

Lemma X6_records_change_only_by_decoder_witness :
  let o := handleNotification 2 sample_tail (sample_accumulating x02) in
  (Forall is_store (trace_of o)
   /\ records_unchanged (sample_accumulating x02) (final_state o))
  \/ (exists d entry tr1,
        trace_of o = tr1 ++ [EvDecode d entry]
        /\ Forall is_store tr1
        /\ records_unchanged (sample_accumulating x02) entry
        /\ final_state o = decoded d entry).
Proof.
  apply (X6_records_change_only_by_decoder 2 sample_tail
           (sample_accumulating x02)).
  vm_compute. reflexivity.
Defined.

(** * Invariants of the flags and the throttle *)

Lemma reassemble_drop (pData : list byte) (s : JKBMS) :
  (length pData < 4)%nat \/ (Idle s /\ is_start_sequence pData = false) ->
  reassemble pData s = Done tt s [].
Proof.
  intros Hcase. unfold reassemble.
  destruct (Z.ltb_spec (Z.of_nat (length pData)) 4) as [|Hlong]; [done|].
  destruct Hcase as [Hshort|[Hidle Hst]]; [lia|].
  rewrite Hst. unfold mbind, M_bind, bind, get.
  by destruct Hidle as [-> | ->]; [|destruct (received_start s)].
Qed.

Lemma append_loop_full (pData : list byte) (s : JKBMS) :
  300 <= frame s -> append_loop pData s = Done tt s [].
Proof.
  intros H. destruct pData as [|b rest]; [done|].
  cbn [append_loop]. unfold mbind, M_bind, bind, get.
  by destruct (Z.ltb_spec (frame s) 300); [lia|].
Qed.

Lemma take_blit (k f : nat) (src buf : list byte) :
  (k <= f)%nat -> (f <= length buf)%nat ->
  take k (blit f src buf) = take k buf.
Proof.
  intros Hk Hf. unfold blit.
  rewrite take_app_le by (rewrite length_take; lia).
  rewrite take_take. f_equal. lia.
Qed.

Lemma Inv_flags_dispatched (buf : list byte) (s : JKBMS) :
  ignoreNotifyCount s = 0 ->
  take 4 buf = start_sequence ->
  Inv_flags (dispatched (completed buf s)).
Proof.
  intros Hc Hh. unfold dispatched.
  destruct (frame_decoder _) as [[]|]; cbn;
    (split; [cbn; lia|]); (split; [done|]); intros _; split; try done.
  all: unfold parseDeviceInfo; cbn; done.
Qed.

Lemma handleNotification_Inv_flags
    (now : Z) (pData : list byte) (s s' : JKBMS) (tr : list event) :
  Inv s -> Inv_flags s ->
  handleNotification now pData s = Done tt s' tr ->
  Inv_flags s'.
Proof.
  intros [[Hbuf Hfr] Hhdr] (Hcnt & Hex & Hco) Hrun.
  destruct (Z.ltb_spec 0 (ignoreNotifyCount s)) as [Hthr|Hthr].
  { rewrite handleNotification_throttled in Hrun by done.
    injection Hrun as <- <-. split; [cbn; lia|by split]. }
  assert (Hzero : ignoreNotifyCount s = 0) by lia.
  destruct (Nat.lt_ge_cases (length pData) 4) as [Hshort|Hlong].
  { rewrite handleNotification_pass, reassemble_drop in Hrun
      by (done || by left).
    injection Hrun as <- <-. by split. }
  destruct (is_start_sequence pData) eqn:Hst.
  { rewrite start_chunk_spec in Hrun by done.
    injection Hrun as <- <-. split; [cbn; lia|]. by split. }
  destruct (received_start s) eqn:Es; [destruct (received_complete s) eqn:Ec|].
  - specialize (Hex eq_refl). congruence.
  - destruct (Hhdr (conj Es Ec)) as [H4 Hh].
    rewrite handleNotification_continue in Hrun by done.
    destruct (Z.eq_dec (frame s) 300) as [E300|Hne].
    { rewrite append_loop_full in Hrun by (cbn; lia).
      injection Hrun as <- <-. split; [done|]. split; cbn; congruence. }
    rewrite (append_loop_spec pData _ (Z.to_nat (frame s))) in Hrun
      by (cbn; lia).
    destruct (_ <? 300)%nat.
    + injection Hrun as <- <-. split; [done|]. split; cbn; congruence.
    + injection Hrun as <- <-. apply Inv_flags_dispatched; [done|].
      cbn. rewrite take_blit by lia. done.
  - rewrite handleNotification_pass, reassemble_drop in Hrun;
      [|right; split; [by left|done]|done].
    injection Hrun as <- <-. split; [done|]. split; cbn; [congruence|done].
Qed.

Lemma deliver_Inv_flags (chunks : list (Z * list byte)) :
  forall (s s' : JKBMS) (tr : list event),
    Inv s -> Inv_flags s ->
    deliver chunks s = Done tt s' tr -> Inv_flags s'.
Proof.
  induction chunks as [|[now c] rest IH]; intros s s' tr HI HF.
  - by intros [= <- <-].
  - cbn [deliver]. unfold mbind, M_bind, bind.
    destruct (handleNotification_Inv now c s HI)
      as (s1 & tr1 & Hrun & HI1 & _). rewrite Hrun.
    destruct (deliver rest s1) as [[] s2 tr2|] eqn:E; [|done].
    intros [= <- <-].
    eapply IH; [exact HI1| |exact E].
    exact (handleNotification_Inv_flags now c s s1 tr1 HI HF Hrun).
Qed.

(** X5: for every sequence of chunk deliveries to a newly constructed
    object, the throttle counter stays within 0..10, received_start and
    received_complete are never both set, and whenever received_complete
    is set the cursor is 300 and the buffer begins with the start
    sequence. *)
Theorem X5_flags_and_throttle_invariant
    (mac : string) (chunks : list (Z * list byte)) :
  exists s tr,
    deliver chunks (JKBMS_new mac) = Done tt s tr
    /\ 0 <= ignoreNotifyCount s <= 10
    /\ (received_start s && received_complete s = false)
    /\ (if received_complete s
        then frame s = 300 /\ take 4 (receivedBytes s) = start_sequence
        else True).
Proof.
  destruct (deliver_Inv chunks (JKBMS_new mac) (Inv_new mac))
    as (s & tr & Hrun & _).
  exists s, tr. split; [done|].
  assert (HF0 : Inv_flags (JKBMS_new mac)).
  { split; [cbn; lia|]. by split. }
  destruct (deliver_Inv_flags chunks _ _ _ (Inv_new mac) HF0 Hrun)
    as (Hcnt & Hex & Hco).
  split; [done|]. split.
  - destruct (received_start s); [|done]. by rewrite Hex.
  - destruct (received_complete s); [by apply Hco|done].
Qed.

(** * Settings and device-info frames *)

Lemma handleNotification_decode_entry
    (now : Z) (pData : list byte) (s s' : JKBMS) (tr : list event)
    (d : Decoder) (entry : JKBMS) :
  handleNotification now pData s = Done tt s' tr ->
  In (EvDecode d entry) tr ->
  exists buf,
    entry = completed buf (set_lastNotifyTime now s)
    /\ s' = decoded d entry.
Proof.
  intros Hrun Hin.
  destruct (Z.ltb_spec 0 (ignoreNotifyCount s)) as [Hthr|Hthr].
  { rewrite handleNotification_throttled in Hrun by done.
    injection Hrun as <- <-. destruct Hin. }
  rewrite handleNotification_pass in Hrun by done.
  apply reassemble_cases in Hrun
    as [(Htr & _)|(buf & tr1 & _ & -> & -> & Htr)].
  { destruct (not_store_decode _ _ _ Htr Hin). }
  apply in_app_or in Hin as [Hin|Hin].
  { destruct (not_store_decode _ _ _ Htr Hin). }
  exists buf. unfold dispatch_events, dispatched in *.
  destruct (frame_decoder _) as [d'|]; [|destruct Hin].
  by destruct Hin as [[= <- <-]|[]].
Qed.

(** X7: a call that runs the settings decoder returns with new_data
    still set, the throttle not armed and the cell data untouched, and the
    settings record is the decoding of the buffer the call leaves behind.
    A call that runs the device-info decoder clears new_data and changes
    neither record nor the throttle: the object keeps nothing of the
    device information. *)
Theorem X7_settings_and_device_info_frames
    (now : Z) (pData : list byte) (s s' : JKBMS) (tr : list event)
    (d : Decoder) (entry : JKBMS) :
  handleNotification now pData s = Done tt s' tr ->
  In (EvDecode d entry) tr ->
  match d with
  | Dec_bms_settings =>
      new_data s' = true
      /\ ignoreNotifyCount s' = ignoreNotifyCount s
      /\ bms_data s' = bms_data s
      /\ bms_cfg s' = bms_cfg (bms_settings s')
  | Dec_parseDeviceInfo =>
      new_data s' = false
      /\ ignoreNotifyCount s' = ignoreNotifyCount s
      /\ records_unchanged s s'
      /\ s' = set_new_data false entry
  | Dec_parseData => True
  end.
Proof.
  intros Hrun Hin.
  destruct (handleNotification_decode_entry _ _ _ _ _ _ _ Hrun Hin)
    as (buf & -> & ->).
  destruct d; [done| |done].
  cbn. unfold parseDeviceInfo. cbn. done.
Qed.

Lemma X7_settings_and_device_info_frames_witness :
  (let s := sample_accumulating x01 in
   let s' := final_state (handleNotification 2 sample_tail s) in
   new_data s' = true
   /\ ignoreNotifyCount s' = ignoreNotifyCount s
   /\ bms_data s' = bms_data s
   /\ bms_cfg s' = bms_cfg (bms_settings s'))
  /\ (let s := sample_accumulating x03 in
      let o := handleNotification 2 sample_tail s in
      new_data (final_state o) = false
      /\ ignoreNotifyCount (final_state o) = ignoreNotifyCount s
      /\ records_unchanged s (final_state o)
      /\ final_state o = set_new_data false (first_entry (trace_of o))).
Proof.
  split.
  - apply (X7_settings_and_device_info_frames 2 sample_tail
             (sample_accumulating x01) _
             (trace_of (handleNotification 2 sample_tail
                          (sample_accumulating x01)))
             Dec_bms_settings
             (first_entry (trace_of (handleNotification 2 sample_tail
                                       (sample_accumulating x01))))).
    + vm_compute. reflexivity.
    + vm_compute. right. left. reflexivity.
  - apply (X7_settings_and_device_info_frames 2 sample_tail
             (sample_accumulating x03) _
             (trace_of (handleNotification 2 sample_tail
                          (sample_accumulating x03)))
             Dec_parseDeviceInfo
             (first_entry (trace_of (handleNotification 2 sample_tail
                                       (sample_accumulating x03))))).
    + vm_compute. reflexivity.
    + vm_compute. right. left. reflexivity.
Defined.

(** * Arithmetic of the decoders *)

Lemma lor_shiftl_add (hi lo n : Z) :
  0 <= n -> 0 <= lo < 2 ^ n ->
  Z.lor (Z.shiftl hi n) lo = hi * 2 ^ n + lo.
Proof.
  intros Hn Hlo.
  assert (Hland : Z.land (Z.shiftl hi n) lo = 0).
  { apply Z.bits_inj'. intros m Hm. rewrite Z.land_spec, Z.bits_0.
    destruct (Z.lt_ge_cases m n) as [Hlt|Hge].
    - by rewrite Z.shiftl_spec_low.
    - destruct (Z.eq_dec lo 0) as [->|Hne].
      + by rewrite Z.bits_0, andb_false_r.
      + rewrite (Z.bits_above_log2 lo m), andb_false_r; [done|lia|].
        assert (Z.log2 lo < n) by (apply Z.log2_lt_pow2; lia). lia. }
  rewrite <- Z.lxor_lor, <- Z.add_nocarry_lxor by done.
  by rewrite Z.shiftl_mul_pow2.
Qed.

Lemma byte_at_range (rb : list byte) (i : nat) : 0 <= byte_at rb i < 256.
Proof. apply byte_to_Z_range. Qed.

(** The 16-bit expression is the little-endian value of its two bytes. *)
Lemma le16_value (rb : list byte) (i : nat) :
  le16 rb i = le_unsigned rb i 2 /\ 0 <= le16 rb i <= 65535.
Proof.
  unfold le16. cbn [le_unsigned].
  rewrite lor_shiftl_add by (lia || apply byte_at_range).
  pose proof (byte_at_range rb i). pose proof (byte_at_range rb (i + 1)).
  replace (S i) with (i + 1)%nat by lia.
  change (2 ^ 8) with 256. lia.
Qed.

(** The 32-bit expression is the two's-complement reading of its four
    bytes, least significant first. *)
Lemma le32_value (rb : list byte) (i : nat) :
  le32 rb i = twos_complement32 (le_unsigned rb i 4).
Proof.
  unfold le32, int32, twos_complement32. cbn [le_unsigned].
  replace (S i) with (i + 1)%nat by lia.
  replace (S (i + 1)) with (i + 2)%nat by lia.
  replace (S (i + 2)) with (i + 3)%nat by lia.
  pose proof (byte_at_range rb i) as H0.
  pose proof (byte_at_range rb (i + 1)) as H1.
  pose proof (byte_at_range rb (i + 2)) as H2.
  pose proof (byte_at_range rb (i + 3)) as H3.
  set (b0 := byte_at rb i) in *. set (b1 := byte_at rb (i + 1)) in *.
  set (b2 := byte_at rb (i + 2)) in *. set (b3 := byte_at rb (i + 3)) in *.
  rewrite (Z.shiftl_mul_pow2 b3), (Z.shiftl_mul_pow2 b2),
    (Z.shiftl_mul_pow2 b1) by lia.
  change (2 ^ 8) with 256. change (2 ^ 16) with 65536.
  change (2 ^ 24) with 16777216. change (2 ^ 31) with 2147483648.
  change (2 ^ 32) with 4294967296.
  set (h := (b3 * 16777216 + 2147483648) mod 4294967296 - 2147483648).
  assert (Hh : h = (if b3 <? 128 then b3 else b3 - 256) * 16777216).
  { subst h. destruct (Z.ltb_spec b3 128).
    - rewrite Z.mod_small by lia. lia.
    - replace (b3 * 16777216 + 2147483648)
        with ((b3 * 16777216 - 2147483648) + 1 * 4294967296) by lia.
      rewrite Z.mod_add, Z.mod_small by lia. lia. }
  set (x := if b3 <? 128 then b3 else b3 - 256) in *.
  rewrite Hh.
  replace (x * 16777216) with (Z.shiftl x 24)
    by (rewrite Z.shiftl_mul_pow2 by lia; reflexivity).
  rewrite (lor_shiftl_add x (b2 * 65536) 24) by lia.
  change (2 ^ 24) with 16777216.
  replace (x * 16777216 + b2 * 65536)
    with (Z.shiftl (x * 256 + b2) 16)
    by (rewrite Z.shiftl_mul_pow2 by lia; change (2 ^ 16) with 65536; lia).
  rewrite (lor_shiftl_add _ (b1 * 256) 16) by lia.
  change (2 ^ 16) with 65536.
  replace ((x * 256 + b2) * 65536 + b1 * 256)
    with (Z.shiftl ((x * 256 + b2) * 256 + b1) 8)
    by (rewrite Z.shiftl_mul_pow2 by lia; change (2 ^ 8) with 256; lia).
  rewrite (lor_shiftl_add _ b0 8) by lia.
  change (2 ^ 8) with 256.
  subst x. destruct (Z.ltb_spec b3 128);
    destruct (Z.ltb_spec
                (b0 + 256 * (b1 + 256 * (b2 + 256 * (b3 + 256 * 0))))
                2147483648); lia.
Qed.

Lemma twos_complement32_range (u : Z) :
  0 <= u < 2 ^ 32 ->
  - 2 ^ 31 <= twos_complement32 u < 2 ^ 31
  /\ (twos_complement32 u < 0 <-> 2 ^ 31 <= u)
  /\ twos_complement32 u mod 2 ^ 32 = u.
Proof.
  intros H. unfold twos_complement32.
  change (2 ^ 31) with 2147483648 in *.
  change (2 ^ 32) with 4294967296 in *.
  destruct (Z.ltb_spec u 2147483648).
  - rewrite Z.mod_small by lia. lia.
  - replace (u - 4294967296) with (u + (-1) * 4294967296) by lia.
    rewrite Z.mod_add, Z.mod_small by lia. lia.
Qed.

Lemma le_unsigned4_range (rb : list byte) (i : nat) :
  0 <= le_unsigned rb i 4 < 2 ^ 32
  /\ (2 ^ 31 <= le_unsigned rb i 4 <-> 0x80 <= byte_at rb (i + 3)).
Proof.
  cbn [le_unsigned].
  replace (S (S (S i))) with (i + 3)%nat by lia.
  pose proof (byte_at_range rb i). pose proof (byte_at_range rb (S i)).
  pose proof (byte_at_range rb (S (S i))).
  pose proof (byte_at_range rb (i + 3)).
  change (2 ^ 31) with 2147483648. change (2 ^ 32) with 4294967296.
  lia.
Qed.

(** A number times a positive scale factor has the sign of the number. *)
Lemma scaled_sign (v : Z) (q : Q) :
  (0 < q)%Q ->
  ((inject_Z v * q < 0)%Q <-> v < 0)
  /\ ((inject_Z v * q == 0)%Q <-> v = 0)
  /\ ((0 < inject_Z v * q)%Q <-> 0 < v).
Proof.
  destruct q as [n d]. unfold Qlt, Qeq, Qmult, inject_Z.
  cbn [Qnum Qden]. rewrite !Z.mul_1_r, Z.mul_0_l. intros Hn.
  repeat split; nia.
Qed.

(** X8: each 32-bit field of the CellData decoder (battery voltage at
    offset 150, charge current at 158, remaining capacity at 174, nominal
    capacity at 178, cycle count at 182, cycle capacity at 186) has the
    sign of the two's-complement reading [v] of the four bytes at its
    offset, least significant first: it is negative exactly when the
    fourth byte is 0x80 or more (the battery voltage is no exception) and
    zero exactly when [v] is.  The value is stated for readings of
    magnitude up to 10,000,000, which a 32-bit float still tells apart
    after scaling: there the field is [v] times 0.001, the cycle count
    [v] itself. *)
Theorem X8_cell_data_32bit_fields_are_signed
    (s : JKBMS) (i : nat) (field : CellData -> Q) (scale : Q) :
  In (i, field, scale)
     [(150%nat, Battery_Voltage, 1 # 1000);
      (158%nat, Charge_Current, 1 # 1000);
      (174%nat, Capacity_Remain, 1 # 1000);
      (178%nat, Nominal_Capacity, 1 # 1000);
      (182%nat, Cycle_Count, 1);
      (186%nat, Cycle_Capacity, 1 # 1000)]%Q ->
  let rb := receivedBytes s in
  let v := twos_complement32 (le_unsigned rb i 4) in
  let x := field (bms_data (parseData s)) in
  - 2 ^ 31 <= v < 2 ^ 31
  /\ (v < 0 <-> 0x80 <= byte_at rb (i + 3))
  /\ ((x < 0)%Q <-> 0x80 <= byte_at rb (i + 3))
  /\ ((x == 0)%Q <-> v = 0)
  /\ (Z.abs v <= 10000000 -> (x == inject_Z v * scale)%Q).
Proof.
  intros Hin rb v x.
  destruct (le_unsigned4_range rb i) as [Hu Hhi].
  destruct (twos_complement32_range _ Hu) as (Hr & Hneg & _).
  assert (Ef : (x == inject_Z v * scale)%Q /\ (0 < scale)%Q).
  { subst x v. rewrite <- le32_value.
    destruct Hin as [[= <- <- <-]|[[= <- <- <-]|[[= <- <- <-]
                    |[[= <- <- <-]|[[= <- <- <-]|[[= <- <- <-]|[]]]]]]];
      (split; [|reflexivity]);
      cbn [bms_data parseData set_bms_data Battery_Voltage Charge_Current
           Capacity_Remain Nominal_Capacity Cycle_Count Cycle_Capacity];
      unfold milli; rewrite ?Qmult_1_r; reflexivity. }
  destruct Ef as [Ef Hpos].
  destruct (scaled_sign v scale Hpos) as (Sneg & Szero & _).
  assert (Hv : v < 0 <-> 0x80 <= byte_at rb (i + 3))
    by (fold v in Hneg; rewrite Hneg; exact Hhi).
  split; [done|]. split; [done|]. split; [|split].
  - rewrite Ef, Sneg. exact Hv.
  - rewrite Ef. exact Szero.
  - intros _. exact Ef.
Qed.

Lemma X8_cell_data_32bit_fields_are_signed_witness :
  let s := sample_bytes 158 [x18; xfc; xff; xff] in
  let rb := receivedBytes s in
  let v := twos_complement32 (le_unsigned rb 158 4) in
  let x := Charge_Current (bms_data (parseData s)) in
  - 2 ^ 31 <= v < 2 ^ 31
  /\ (v < 0 <-> 0x80 <= byte_at rb (158 + 3))
  /\ ((x < 0)%Q <-> 0x80 <= byte_at rb (158 + 3))
  /\ ((x == 0)%Q <-> v = 0)
  /\ Z.abs v <= 10000000
  /\ (x == inject_Z v * (1 # 1000))%Q.
Proof.
  intros s rb v x.
  pose proof (X8_cell_data_32bit_fields_are_signed s 158 Charge_Current
                (1 # 1000)) as H.
  destruct H as (H1 & H2 & H3 & H4 & H5).
  { right. left. reflexivity. }
  assert (Hb : Z.abs v <= 10000000) by (vm_compute; discriminate).
  exact (conj H1 (conj H2 (conj H3 (conj H4 (conj Hb (H5 Hb)))))).
Defined.

(** A negative current of one ampere, as the witness decodes it. *)
Example charge_current_minus_one_ampere :
  (Charge_Current (bms_data (parseData (sample_bytes 158 [x18; xfc; xff; xff])))
   == -1)%Q.
Proof. reflexivity. Qed.

(** X9: every 32-bit field of the settings record has the sign of the
    two's-complement reading [v] of the four bytes at its offset, least
    significant first: negative exactly when the fourth byte is 0x80 or
    more, zero exactly when [v] is.  For readings of magnitude up to
    10,000,000, which a 32-bit float still tells apart after scaling, the
    field is [v] times its scale factor (0.001 for voltages, currents and
    the capacity, 0.1 for temperatures, 1 for delays and times).  The cell
    count, an [int], is the reading at offset 114 whatever its size. *)
Theorem X9_settings_fields (s : JKBMS) (i : nat) (field : Settings -> Q)
    (scale : Q) :
  In (i, field, scale) settings_table ->
  let rb := receivedBytes s in
  let v := twos_complement32 (le_unsigned rb i 4) in
  let x := field (bms_cfg (bms_settings s)) in
  ((x < 0)%Q <-> 0x80 <= byte_at rb (i + 3))
  /\ ((x == 0)%Q <-> v = 0)
  /\ (Z.abs v <= 10000000 -> (x == inject_Z v * scale)%Q)
  /\ cell_count (bms_cfg (bms_settings s))
     = twos_complement32 (le_unsigned rb 114 4).
Proof.
  intros Hin rb v x.
  destruct (le_unsigned4_range rb i) as [Hu Hhi].
  destruct (twos_complement32_range _ Hu) as (Hr & Hneg & _).
  assert (Ef : (x == inject_Z v * scale)%Q /\ (0 < scale)%Q).
  { subst x v. rewrite <- le32_value. unfold settings_table in Hin.
    repeat (destruct Hin as [[= <- <- <-]|Hin];
            [split; [|reflexivity];
             cbn [bms_cfg bms_settings set_bms_cfg
                  cell_voltage_undervoltage_protection
                  cell_voltage_undervoltage_recovery
                  cell_voltage_overvoltage_protection
                  cell_voltage_overvoltage_recovery balance_trigger_voltage
                  power_off_voltage max_charge_current
                  charge_overcurrent_protection_delay
                  charge_overcurrent_protection_recovery_time
                  max_discharge_current
                  discharge_overcurrent_protection_delay
                  discharge_overcurrent_protection_recovery_time
                  short_circuit_protection_recovery_time max_balance_current
                  charge_overtemperature_protection
                  charge_overtemperature_protection_recovery
                  discharge_overtemperature_protection
                  discharge_overtemperature_protection_recovery
                  charge_undertemperature_protection
                  charge_undertemperature_protection_recovery
                  power_tube_overtemperature_protection
                  power_tube_overtemperature_protection_recovery
                  total_battery_capacity short_circuit_protection_delay
                  balance_starting_voltage];
             unfold milli, deci; rewrite ?Z.mul_1_r, ?Qmult_1_r;
             reflexivity|]).
    destruct Hin. }
  destruct Ef as [Ef Hpos].
  destruct (scaled_sign v scale Hpos) as (Sneg & Szero & _).
  split; [|split; [|split]].
  - rewrite Ef, Sneg. fold v in Hneg. rewrite Hneg. exact Hhi.
  - rewrite Ef. exact Szero.
  - intros _. exact Ef.
  - cbn. by rewrite le32_value.
Qed.

Lemma X9_settings_fields_witness :
  let s := sample_bytes 82 [xbc; x02; x00; x00] in
  let rb := receivedBytes s in
  let v := twos_complement32 (le_unsigned rb 82 4) in
  let x := charge_overtemperature_protection (bms_cfg (bms_settings s)) in
  ((x < 0)%Q <-> 0x80 <= byte_at rb (82 + 3))
  /\ ((x == 0)%Q <-> v = 0)
  /\ Z.abs v <= 10000000
  /\ (x == inject_Z v * (1 # 10))%Q
  /\ cell_count (bms_cfg (bms_settings s))
     = twos_complement32 (le_unsigned rb 114 4).
Proof.
  intros s rb v x.
  pose proof (X9_settings_fields s 82 charge_overtemperature_protection
                (1 # 10)) as H.
  destruct H as (H1 & H2 & H3 & H4).
  { unfold settings_table. do 14 right. left. reflexivity. }
  assert (Hb : Z.abs v <= 10000000) by (vm_compute; discriminate).
  exact (conj H1 (conj H2 (conj Hb (conj (H3 Hb) H4)))).
Defined.

Lemma byte_at_take (k : nat) (rb : list byte) (i : nat) :
  (i < k)%nat -> byte_at (take k rb) i = byte_at rb i.
Proof.
  intros H. unfold byte_at. by rewrite !nth_lookup, lookup_take_lt.
Qed.

Lemma parseData_take (rb : list byte) (fr : Z) (s : JKBMS) :
  bms_data (parseData (set_buffer (take 202 rb) fr s))
  = bms_data (parseData (set_buffer rb fr s)).
Proof.
  unfold parseData, temperature_raw, le16, le32, status_flag.
  cbn [bms_data set_bms_data receivedBytes set_ignoreNotifyCount
       set_new_data set_buffer fmap list_fmap seq Nat.add Nat.mul].
  f_equal; rewrite ?byte_at_take by lia; reflexivity.
Qed.

Lemma bms_settings_take (rb : list byte) (fr : Z) (s : JKBMS) :
  bms_cfg (bms_settings (set_buffer (take 202 rb) fr s))
  = bms_cfg (bms_settings (set_buffer rb fr s)).
Proof.
  unfold bms_settings, le32.
  cbn [bms_cfg set_bms_cfg receivedBytes set_buffer Nat.add].
  f_equal; rewrite ?byte_at_take by lia; reflexivity.
Qed.

(** X10: no decoder reads the buffer from index 202 on.  Replacing the
    buffer by one that agrees with it on the first 202 bytes leaves the
    records a decoder produces as they are: bytes 202-299 of a frame, the
    last one (the sender's checksum) included, have no influence. *)
Theorem X10_decoders_ignore_frame_tail
    (d : Decoder) (s : JKBMS) (buf : list byte) :
  take 202 buf = take 202 (receivedBytes s) ->
  let s2 := set_buffer buf (frame s) s in
  bms_data (decoded d s2) = bms_data (decoded d s)
  /\ bms_cfg (decoded d s2) = bms_cfg (decoded d s)
  /\ new_data (decoded d s2) = new_data (decoded d s)
  /\ ignoreNotifyCount (decoded d s2) = ignoreNotifyCount (decoded d s).
Proof.
  intros Htake s2. subst s2.
  rewrite <- (set_buffer_same s) at 2 4 6 8.
  destruct d; cbn [decoded].
  - split; [done|]. split; [|done].
    by rewrite <- bms_settings_take, Htake, bms_settings_take.
  - split; [|done].
    by rewrite <- parseData_take, Htake, parseData_take.
  - unfold parseDeviceInfo. cbn. by destruct (frame s <? 134).
Qed.

Lemma X10_decoders_ignore_frame_tail_witness :
  let s := sample_bytes 158 [x18; xfc; xff; xff] in
  let s2 := set_buffer (<[299%nat := xff]> (receivedBytes s)) (frame s) s in
  bms_data (decoded Dec_parseData s2) = bms_data (decoded Dec_parseData s)
  /\ bms_cfg (decoded Dec_parseData s2) = bms_cfg (decoded Dec_parseData s)
  /\ new_data (decoded Dec_parseData s2)
     = new_data (decoded Dec_parseData s)
  /\ ignoreNotifyCount (decoded Dec_parseData s2)
     = ignoreNotifyCount (decoded Dec_parseData s).
Proof.
  apply (X10_decoders_ignore_frame_tail Dec_parseData
           (sample_bytes 158 [x18; xfc; xff; xff])
           (<[299%nat := xff]>
              (receivedBytes (sample_bytes 158 [x18; xfc; xff; xff])))).
  vm_compute. reflexivity.
Defined.

(** X11: the uptime of the CellData decoder.  With [raw] the 24-bit value
    of bytes 194-196, least significant first: sec, mi, hr and days are
    the seconds, minutes, hours and days of [raw] seconds (no truncation
    to 8 bits occurs: days is at most 194), and the Uptime field is left
    holding raw / 3600, the whole hours, not the seconds. *)
Theorem X11_uptime_decomposition (s : JKBMS) :
  let raw := le_unsigned (receivedBytes s) 194 3 in
  let d := bms_data (parseData s) in
  sec d + 60 * mi d + 3600 * hr d + 86400 * days d = raw
  /\ 0 <= sec d < 60 /\ 0 <= mi d < 60 /\ 0 <= hr d < 24
  /\ 0 <= days d <= 194
  /\ Uptime d = raw / 3600.
Proof.
  intros raw d. subst d. unfold parseData.
  cbn [bms_data set_bms_data receivedBytes set_ignoreNotifyCount
       set_new_data sec mi hr days Uptime].
  pose proof (byte_at_range (receivedBytes s) 194) as H0.
  pose proof (byte_at_range (receivedBytes s) 195) as H1.
  pose proof (byte_at_range (receivedBytes s) 196) as H2.
  assert (Eraw : Z.lor (Z.lor (Z.shiftl (byte_at (receivedBytes s) 196) 16)
                              (Z.shiftl (byte_at (receivedBytes s) 195) 8))
                       (byte_at (receivedBytes s) 194) = raw).
  { subst raw. cbn [le_unsigned].
    rewrite (Z.shiftl_mul_pow2 _ 8) by lia.
    rewrite (lor_shiftl_add _ _ 16) by (change (2 ^ 8) with 256; lia).
    change (2 ^ 8) with 256. change (2 ^ 16) with 65536.
    replace (byte_at (receivedBytes s) 196 * 65536
             + byte_at (receivedBytes s) 195 * 256)
      with (Z.shiftl (byte_at (receivedBytes s) 196 * 256
                      + byte_at (receivedBytes s) 195) 8)
      by (rewrite Z.shiftl_mul_pow2 by lia; change (2 ^ 8) with 256; lia).
    rewrite lor_shiftl_add by lia. change (2 ^ 8) with 256. lia. }
  rewrite Eraw.
  assert (Hraw : 0 <= raw < 16777216).
  { subst raw. cbn [le_unsigned]. lia. }
  clearbody raw. clear Eraw H0 H1 H2.
  assert (Hs : 0 <= raw mod 60 < 60) by (apply Z.mod_pos_bound; lia).
  assert (Hm : 0 <= raw / 60 mod 60 < 60) by (apply Z.mod_pos_bound; lia).
  assert (Hh : 0 <= raw / 60 / 60 mod 24 < 24)
    by (apply Z.mod_pos_bound; lia).
  assert (Hd : 0 <= raw / 60 / 60 / 24 <= 194).
  { rewrite (Z.div_div raw 60 60), (Z.div_div raw (60 * 60) 24) by lia.
    split.
    - apply Z.div_pos; lia.
    - assert (raw / (60 * 60 * 24) < 195)
        by (apply Z.div_lt_upper_bound; lia).
      lia. }
  rewrite !(Z.mod_small _ 256) by lia.
  split; [|repeat split; try lia; by rewrite (Z.div_div raw 60 60) by lia].
  pose proof (Z.div_mod raw 60 ltac:(lia)).
  pose proof (Z.div_mod (raw / 60) 60 ltac:(lia)).
  pose proof (Z.div_mod (raw / 60 / 60) 24 ltac:(lia)).
  lia.
Qed.

(** The specification's example: 90065 seconds are 1 day, 1 hour,
    1 minute and 5 seconds. *)
Example uptime_90065 :
  let d := bms_data (parseData (sample_bytes 194 [xd1; x5f; x01])) in
  (days d, hr d, mi d, sec d, Uptime d) = (1, 1, 1, 5, 25).
Proof. reflexivity. Qed.

(** X12: the CellData decoder fills all 16 slots of cellVoltage and of
    wireResist; slot j of cellVoltage is the 16-bit value of bytes
    6+2j, 7+2j (least significant first) times 0.001, slot j of wireResist
    that of bytes 80+2j, 81+2j; each raw value is within 0..65535, so no
    slot is negative or above 65.535. *)
Theorem X12_cell_voltage_slots (s : JKBMS) (j : nat) :
  (j < 16)%nat ->
  let rb := receivedBytes s in
  let d := bms_data (parseData s) in
  cellVoltage d !! j
  = Some (inject_Z (le_unsigned rb (6 + 2 * j) 2) * (1 # 1000))%Q
  /\ wireResist d !! j
     = Some (inject_Z (le_unsigned rb (80 + 2 * j) 2) * (1 # 1000))%Q
  /\ length (cellVoltage d) = 16%nat /\ length (wireResist d) = 16%nat
  /\ 0 <= le_unsigned rb (6 + 2 * j) 2 <= 65535
  /\ 0 <= le_unsigned rb (80 + 2 * j) 2 <= 65535.
Proof.
  intros Hj rb d. subst d. unfold parseData.
  cbn [bms_data set_bms_data receivedBytes set_ignoreNotifyCount
       set_new_data cellVoltage wireResist].
  fold rb.
  destruct (le16_value rb (6 + 2 * j)) as [E1 R1].
  destruct (le16_value rb (80 + 2 * j)) as [E2 R2].
  rewrite !list_lookup_fmap, !lookup_seq_lt by done.
  rewrite !length_fmap, !length_seq. cbn [fmap option_fmap option_map].
  change (0 + j)%nat with j. unfold milli. rewrite E1, E2.
  rewrite E1 in R1. rewrite E2 in R2. repeat split; (done || lia).
Qed.

Lemma X12_cell_voltage_slots_witness :
  let s := sample_bytes 8 [x10; x0c] in
  let rb := receivedBytes s in
  let d := bms_data (parseData s) in
  cellVoltage d !! 1%nat
  = Some (inject_Z (le_unsigned rb (6 + 2 * 1) 2) * (1 # 1000))%Q
  /\ wireResist d !! 1%nat
     = Some (inject_Z (le_unsigned rb (80 + 2 * 1) 2) * (1 # 1000))%Q
  /\ length (cellVoltage d) = 16%nat /\ length (wireResist d) = 16%nat
  /\ 0 <= le_unsigned rb (6 + 2 * 1) 2 <= 65535
  /\ 0 <= le_unsigned rb (80 + 2 * 1) 2 <= 65535.
Proof.
  apply (X12_cell_voltage_slots (sample_bytes 8 [x10; x0c]) 1). lia.
Defined.

(** The specification's example: bytes 0x10, 0x0C are 3.088 V. *)
Example cell_voltage_3088 :
  match cellVoltage (bms_data (parseData (sample_bytes 8 [x10; x0c])))
        !! 1%nat with
  | Some v => (v == 3088 # 1000)%Q
  | None => False
  end.
Proof. reflexivity. Qed.

(** X13: the range of a decoded temperature (MOS, T1, T2).  The value
    is r * 0.1 for an integer r with -256 <= r <= 65279, and r is
    negative exactly when the high byte is 0xFF: no temperature below
    -25.6 is ever produced, and a pair whose high byte is in 0x80..0xFE,
    which is negative as a 16-bit two's-complement number, decodes
    6553.6 above that number. *)
Theorem X13_temperature_range
    (s : JKBMS) (i : nat) (field : CellData -> Q) :
  In (i, field)
     [(144%nat, MOS_Temp); (162%nat, Battery_T1); (164%nat, Battery_T2)] ->
  let hi := byte_at (receivedBytes s) (i + 1) in
  let pair := le_unsigned (receivedBytes s) i 2 in
  exists r : Z,
    field (bms_data (parseData s)) = (inject_Z r * (1 # 10))%Q
    /\ - 256 <= r <= 65279
    /\ (r < 0 <-> hi = 0xFF)
    /\ (0x80 <= hi -> hi <> 0xFF -> r = sign_extend16 pair + 65536).
Proof.
  intros Hin hi pair.
  exists (temperature_raw (receivedBytes s) i). split.
  { destruct Hin as [[= <- <-]|[[= <- <-]|[[= <- <-]|[]]]]; reflexivity. }
  destruct (temperature_raw_spec (receivedBytes s) i) as [Hff Hpos].
  destruct (le16_value (receivedBytes s) i) as [E16 _].
  unfold le16 in E16. rewrite E16 in Hff, Hpos. fold pair hi in Hff, Hpos.
  assert (Hp : pair = byte_at (receivedBytes s) i + 256 * hi).
  { subst pair hi. cbn [le_unsigned].
    replace (S i) with (i + 1)%nat by lia. lia. }
  pose proof (byte_at_range (receivedBytes s) i) as Hlo.
  pose proof (byte_at_range (receivedBytes s) (i + 1)) as Hhi. fold hi in Hhi.
  destruct (Z.eq_dec hi 0xFF) as [E|Hne].
  - destruct (Hff E) as [-> Hneg].
    unfold sign_extend16 in *.
    destruct (Z.ltb_spec pair 0x8000); repeat split; try lia; done.
  - destruct (Hpos Hne) as [-> Hnn].
    unfold sign_extend16.
    destruct (Z.ltb_spec pair 0x8000); repeat split; try lia.
Qed.

Lemma X13_temperature_range_witness :
  let s := sample_pair 162 x0c xfe in
  exists r : Z,
    Battery_T1 (bms_data (parseData s)) = (inject_Z r * (1 # 10))%Q
    /\ - 256 <= r <= 65279
    /\ (r < 0 <-> byte_at (receivedBytes s) (162 + 1) = 0xFF)
    /\ (0x80 <= byte_at (receivedBytes s) (162 + 1) ->
        byte_at (receivedBytes s) (162 + 1) <> 0xFF ->
        r = sign_extend16 (le_unsigned (receivedBytes s) 162 2) + 65536).
Proof.
  apply (X13_temperature_range (sample_pair 162 x0c xfe) 162 Battery_T1).
  right. left. reflexivity.
Defined.

(** The pair 0x0C, 0xFE is -50.0 as a 16-bit two's-complement number; the
    decoder yields 6503.6. *)
Example temperature_fe0c :
  (Battery_T1 (bms_data (parseData (sample_pair 162 x0c xfe)))
   == 65036 # 10)%Q.
Proof. reflexivity. Qed.

(** X14: after the CellData decoder, Charge, Discharge and Balance say
    whether bytes 198, 199 and 201 are non-zero, whatever the flags were
    before: the branch that would keep an old value is never taken. *)
Theorem X14_status_flags (s : JKBMS) :
  let rb := receivedBytes s in
  let d := bms_data (parseData s) in
  Charge d = negb (byte_at rb 198 =? 0)
  /\ Discharge d = negb (byte_at rb 199 =? 0)
  /\ Balance d = negb (byte_at rb 201 =? 0).
Proof.
  intros rb d. subst d. unfold parseData, status_flag.
  cbn [bms_data set_bms_data receivedBytes set_ignoreNotifyCount
       set_new_data Charge Discharge Balance]. fold rb.
  pose proof (byte_at_range rb 198). pose proof (byte_at_range rb 199).
  pose proof (byte_at_range rb 201).
  repeat split;
    match goal with
    | |- context [0 <? ?b] =>
        destruct (Z.ltb_spec 0 b), (Z.eqb_spec b 0); try lia; reflexivity
    end.
Qed.

Lemma status_flag_twice (rb : list byte) (i : nat) (old : bool) :
  status_flag rb i (status_flag rb i old) = status_flag rb i old.
Proof.
  unfold status_flag. by destruct (0 <? byte_at rb i), (byte_at rb i =? 0).
Qed.

(** X15: decoding the same buffer twice gives what decoding it once
    gives, and the settings decoder and the CellData decoder can run in
    either order. *)
Theorem X15_decoders_compose (s : JKBMS) :
  parseData (parseData s) = parseData s
  /\ bms_settings (bms_settings s) = bms_settings s
  /\ bms_settings (parseData s) = parseData (bms_settings s).
Proof.
  split; [|split; reflexivity].
  unfold parseData.
  cbn [targetMAC lastNotifyTime receivedBytes frame received_start
       received_complete new_data ignoreNotifyCount bms_data bms_cfg
       set_bms_data set_ignoreNotifyCount set_new_data
       Balance_Curr Charge Discharge Balance].
  rewrite !status_flag_twice.
  by destruct (Z.land (byte_at (receivedBytes s) 171) 240 =? 0),
              (Z.land (byte_at (receivedBytes s) 171) 240 =? 240).
Qed.

(** * Checksum and command frames, further *)

Lemma byte_sum_app (a b : list byte) :
  byte_sum (a ++ b) = byte_sum a + byte_sum b.
Proof.
  induction a as [|x a IH]; cbn; [done|].
  fold (byte_sum (a ++ b)) (byte_sum a). lia.
Qed.

Lemma crc_u8 (data : list byte) (len : nat) :
  crc data len = u8 (byte_sum (take len data)).
Proof. apply byte_to_Z_inj. by rewrite crc_sum, byte_to_Z_u8. Qed.

(** X16: the checksum notices every change of one byte: replacing one
    of the bytes it covers by a different byte changes it. *)
Theorem X16_crc_detects_single_byte_change
    (data : list byte) (len i : nat) (a b : byte) :
  (i < len)%nat ->
  data !! i = Some a ->
  a <> b ->
  crc (<[i := b]> data) len <> crc data len.
Proof.
  intros Hi Ha Hne Heq.
  apply (f_equal byte_to_Z) in Heq. rewrite !crc_sum in Heq.
  assert (Hlt : (i < length data)%nat) by (by eapply lookup_lt_Some).
  rewrite take_insert_lt in Heq by done.
  assert (Ha' : take len data !! i = Some a)
    by (by rewrite lookup_take_lt).
  assert (Hlt' : (i < length (take len data))%nat)
    by (by eapply lookup_lt_Some).
  rewrite insert_take_drop in Heq by done.
  rewrite <- (take_drop_middle (take len data) i a) in Heq at 3 by done.
  rewrite !byte_sum_app in Heq. cbn [byte_sum foldr] in Heq.
  fold (byte_sum (drop (S i) (take len data))) in Heq.
  pose proof (byte_to_Z_range a). pose proof (byte_to_Z_range b).
  assert (byte_to_Z a = byte_to_Z b); [|by apply Hne, byte_to_Z_inj].
  set (p := byte_sum (take i (take len data))) in *.
  set (q := byte_sum (drop (S i) (take len data))) in *.
  clearbody p q.
  assert (Hmod : (byte_to_Z b - byte_to_Z a) mod 256 = 0).
  { replace (byte_to_Z b - byte_to_Z a)
      with ((p + (byte_to_Z b + q)) - (p + (byte_to_Z a + q))) by lia.
    rewrite Zminus_mod, Heq, Z.sub_diag. reflexivity. }
  apply Z.mod_divide in Hmod; [|lia]. destruct Hmod as [k Hk]. lia.
Qed.

Lemma X16_crc_detects_single_byte_change_witness :
  crc (<[6%nat := x01]> (writeRegister x1d 0 x04)) 19
  <> crc (writeRegister x1d 0 x04) 19.
Proof.
  apply (X16_crc_detects_single_byte_change
           (writeRegister x1d 0 x04) 19 6 x00 x01).
  - lia.
  - reflexivity.
  - discriminate.
Defined.

Lemma byte_sum_Permutation (a b : list byte) :
  a ≡ₚ b -> byte_sum a = byte_sum b.
Proof.
  induction 1 as [|x a b _ IH|x y a|a b c _ IH1 _ IH2]; cbn.
  - done.
  - fold (byte_sum a) (byte_sum b). lia.
  - fold (byte_sum a). lia.
  - congruence.
Qed.

(** X17: the checksum is blind to the order of the bytes: two buffers
    that are rearrangements of each other have the same checksum. *)
Theorem X17_crc_blind_to_reordering (data data' : list byte) :
  data ≡ₚ data' ->
  crc data (length data) = crc data' (length data').
Proof.
  intros Hp. rewrite !crc_u8, !firstn_all.
  by rewrite (byte_sum_Permutation _ _ Hp).
Qed.

Lemma X17_crc_blind_to_reordering_witness :
  crc [xaa; x55; x90; xeb] 4 = crc [x55; xaa; xeb; x90] 4.
Proof.
  apply (X17_crc_blind_to_reordering [xaa; x55; x90; xeb]
           [x55; xaa; xeb; x90]).
  etrans; [apply Permutation_swap|].
  do 2 apply Permutation_skip. apply Permutation_swap.
Defined.

(** X18: a command frame has 20 bytes whatever the arguments, and
    determines them: two calls with 32-bit values that build the same
    frame have the same address, value and length field. *)
Theorem X18_command_frame_determines_arguments
    (a a' l l' : byte) (v v' : Z) :
  0 <= v < 2 ^ 32 -> 0 <= v' < 2 ^ 32 ->
  length (writeRegister a v l) = 20%nat
  /\ (writeRegister a v l = writeRegister a' v' l' ->
      a = a' /\ v = v' /\ l = l').
Proof.
  intros Hv Hv'. split; [reflexivity|].
  intros Heq.
  unfold writeRegister in Heq.
  cbn [app replicate insert list_insert] in Heq.
  injection Heq as Ea El E0 E1 E2 E3 _.
  split; [done|]. split; [|done].
  rewrite <- (little_endian_bytes v Hv), <- (little_endian_bytes v' Hv').
  by rewrite E0, E1, E2, E3.
Qed.

Lemma X18_command_frame_determines_arguments_witness :
  length (writeRegister x1d 1 x04) = 20%nat
  /\ (writeRegister x1d 1 x04 = writeRegister x1d 1 x04 ->
      x1d = x1d /\ 1 = 1 /\ x04 = x04).
Proof.
  apply (X18_command_frame_determines_arguments x1d x1d x04 x04 1 1); lia.
Defined.

(** * Several devices *)

(** X19: routing a notification.  When every device object satisfies
    the handler's invariant, notifyCB returns without an out-of-bounds
    store and the invariant still holds for every device.  If no device
    has the notifying characteristic nothing changes; otherwise the first
    such device handles the chunk and every other device, later ones with
    the same characteristic included, is left as it was, as are the BLE
    fields of the handling device. *)
Theorem X19_notification_routed_to_first_match
    (devs : list Device) (p now : Z) (pData : list byte) :
  Forall (fun d => Inv (codec d)) devs ->
  exists devs' tr,
    notifyCB devs p now pData = Routed devs' tr
    /\ Forall (fun d => Inv (codec d)) devs'
    /\ match first_match devs p with
       | None => devs' = devs /\ tr = []
       | Some k =>
           exists d s',
             devs !! k = Some d
             /\ handleNotification now pData (codec d) = Done tt s' tr
             /\ devs' = <[k := {| link := link d; codec := s' |}]> devs
       end.
Proof.
  induction devs as [|d rest IH]; intros Hall.
  - exists [], []. by repeat split.
  - apply Forall_cons in Hall as [Hd Hrest].
    cbn [notifyCB first_match].
    destruct (pChr (link d) =? p).
    + destruct (handleNotification_Inv now pData (codec d) Hd)
        as (s' & tr & Hrun & HI & _).
      rewrite Hrun. eexists _, tr. split; [done|]. split.
      * by constructor.
      * by exists d, s'.
    + destruct (IH Hrest) as (rest' & tr & -> & Hall' & Hm).
      exists (d :: rest'), tr. split; [done|]. split; [by constructor|].
      destruct (first_match rest p) as [k|]; cbn.
      * destruct Hm as (d0 & s' & Hk & Hrun & ->). by exists d0, s'.
      * destruct Hm as [-> ->]. done.
Qed.

Lemma X19_notification_routed_to_first_match_witness :
  exists devs' tr,
    notifyCB sample_fleet 7 2 sample_tail = Routed devs' tr
    /\ Forall (fun d => Inv (codec d)) devs'
    /\ match first_match sample_fleet 7 with
       | None => devs' = sample_fleet /\ tr = []
       | Some k =>
           exists d s',
             sample_fleet !! k = Some d
             /\ handleNotification 2 sample_tail (codec d) = Done tt s' tr
             /\ devs' = <[k := {| link := link d; codec := s' |}]> sample_fleet
       end.
Proof.
  apply (X19_notification_routed_to_first_match sample_fleet 7 2 sample_tail).
  assert (Hacc : forall ty, Inv (sample_accumulating ty)).
  { intros ty.
    destruct (handleNotification_Inv 1 (sample_head ty)
                (JKBMS_new EmptyString) (Inv_new _))
      as (s' & tr & Hrun & HI & _).
    unfold sample_accumulating. by rewrite Hrun. }
  unfold sample_fleet.
  apply Forall_cons; split; [apply Inv_new|].
  apply Forall_cons; split; [apply Hacc|].
  apply Forall_cons; split; [apply Hacc|].
  apply Forall_nil_2.
Defined.

Lemma onResult_device_pending (adv : Advertised) (d : Device) :
  doConnect (link d) = true -> onResult_device adv d = d.
Proof.
  intros H. unfold onResult_device. rewrite H, andb_false_r.
  by destruct (String.eqb _ _).
Qed.

Lemma onResult_device_cases (adv : Advertised) (d : Device) :
  onResult_device adv d = d
  \/ (targetMAC (codec d) <> EmptyString
      /\ adv_address adv = targetMAC (codec d)
      /\ connected (link d) = false
      /\ doConnect (link d) = false
      /\ onResult_device adv d
         = {| link := {| pChr := pChr (link d); advDevice := adv_ptr adv;
                         doConnect := true; connected := false |};
              codec := codec d |}).
Proof.
  unfold onResult_device.
  destruct (String.eqb (targetMAC (codec d)) EmptyString) eqn:Em;
    [by left|].
  destruct (String.eqb (adv_address adv) (targetMAC (codec d))) eqn:Ea;
    [|by left].
  destruct (connected (link d)) eqn:Ec; [by left|].
  destruct (doConnect (link d)) eqn:Ed; [by left|].
  right. apply String.eqb_neq in Em. apply String.eqb_eq in Ea. done.
Qed.

(** X20: a scan result touches nothing but advDevice and doConnect, and
    only of devices with a non-empty MAC equal to the advertised address
    that are neither connected nor already marked.  A marked device is
    not touched by later scan results, whatever they advertise: the
    stored advDevice is not replaced until doConnect is cleared.  In
    particular, reporting the same result twice is the same as reporting
    it once. *)
Theorem X20_scan_result_marks_once
    (adv adv2 : Advertised) (devs : list Device) :
  codec <$> onResult adv devs = codec <$> devs
  /\ (fun d => (pChr (link d), connected (link d))) <$> onResult adv devs
     = (fun d => (pChr (link d), connected (link d))) <$> devs
  /\ Forall2 (fun d d' =>
                d' = d
                \/ (targetMAC (codec d) <> EmptyString
                    /\ adv_address adv = targetMAC (codec d)
                    /\ connected (link d) = false
                    /\ doConnect (link d) = false
                    /\ doConnect (link d') = true
                    /\ advDevice (link d') = adv_ptr adv
                    /\ onResult_device adv2 d' = d'))
             devs (onResult adv devs)
  /\ onResult adv (onResult adv devs) = onResult adv devs.
Proof.
  unfold onResult. repeat split.
  - rewrite <- list_fmap_compose. apply list_fmap_ext. intros _ d _. cbn.
    unfold onResult_device.
    destruct (String.eqb (targetMAC (codec d)) EmptyString); [done|].
    by destruct (String.eqb (adv_address adv) (targetMAC (codec d))
                 && negb (connected (link d)) && negb (doConnect (link d))).
  - rewrite <- list_fmap_compose. apply list_fmap_ext. intros _ d _. cbn.
    unfold onResult_device.
    destruct (String.eqb (targetMAC (codec d)) EmptyString); [done|].
    by destruct (String.eqb (adv_address adv) (targetMAC (codec d))
                 && negb (connected (link d)) && negb (doConnect (link d))).
  - apply Forall2_fmap_r, Forall_Forall2_diag, Forall_forall. intros d _.
    unfold compose. cbv beta.
    destruct (onResult_device_cases adv d) as [->|(H1 & H2 & H3 & H4 & ->)];
      [by left|right].
    repeat split; try done. by apply onResult_device_pending.
  - rewrite <- list_fmap_compose. apply list_fmap_ext. intros _ d _. cbn.
    destruct (onResult_device_cases adv d) as [E|(_ & _ & _ & _ & E)];
      rewrite E; [done|].
    by apply onResult_device_pending.
Qed.

(** X21: the connection cycle.  For a device whose non-empty MAC is the
    advertised address: while it is connected a scan result leaves it
    alone; after onDisconnect the next scan result marks it for
    connection, with the advertised device stored; the codec state is the
    same throughout. *)
Theorem X21_reconnect_cycle (adv : Advertised) (d : Device) :
  targetMAC (codec d) <> EmptyString ->
  adv_address adv = targetMAC (codec d) ->
  onResult adv [onConnect d] = [onConnect d]
  /\ onResult adv [onDisconnect d]
     = [ {| link := {| pChr := pChr (link d); advDevice := adv_ptr adv;
                       doConnect := true; connected := false |};
            codec := codec d |} ].
Proof.
  intros Hne Heq. apply String.eqb_neq in Hne. apply String.eqb_eq in Heq.
  unfold onResult. cbn [fmap list_fmap].
  unfold onResult_device. cbn [codec link connected doConnect pChr
                               onConnect onDisconnect].
  rewrite Hne, Heq. cbn [andb negb]. by destruct d as [[] ?].
Qed.

Lemma X21_reconnect_cycle_witness :
  onResult sample_advert [onConnect sample_idle_device]
  = [onConnect sample_idle_device]
  /\ onResult sample_advert [onDisconnect sample_idle_device]
     = [ {| link := {| pChr := 0; advDevice := 99;
                       doConnect := true; connected := false |};
            codec := codec sample_idle_device |} ].
Proof.
  apply (X21_reconnect_cycle sample_advert sample_idle_device).
  - discriminate.
  - reflexivity.
Defined.

(** * Edge cases of the reassembler and of the device-info decoder *)

(** X22: an object that is Accumulating with the cursor already at 300
    (the state a start chunk of 300 bytes or more leaves behind) does not
    take continuation chunks: with the throttle not armed, a chunk that
    does not begin with the start sequence only updates the clock
    reading.  Nothing is stored, and nothing is dispatched. *)
Theorem X22_full_cursor_takes_no_continuation
    (now : Z) (pData : list byte) (s : JKBMS) :
  ignoreNotifyCount s <= 0 ->
  Accumulating s ->
  300 <= frame s ->
  is_start_sequence pData = false ->
  handleNotification now pData s = Done tt (set_lastNotifyTime now s) [].
Proof.
  intros Hthr Hacc Hfull Hst.
  destruct (Nat.lt_ge_cases (length pData) 4) as [Hshort|Hlong].
  - rewrite handleNotification_pass, reassemble_drop by (done || by left).
    done.
  - rewrite handleNotification_continue by done.
    by apply append_loop_full.
Qed.

Lemma X22_full_cursor_takes_no_continuation_witness :
  let s := final_state (handleNotification 1 sample_frame
                          (JKBMS_new EmptyString)) in
  handleNotification 2 sample_tail s = Done tt (set_lastNotifyTime 2 s) [].
Proof.
  apply (X22_full_cursor_takes_no_continuation 2 sample_tail
           (final_state (handleNotification 1 sample_frame
                           (JKBMS_new EmptyString)))).
  - vm_compute. discriminate.
  - split; reflexivity.
  - vm_compute. discriminate.
  - reflexivity.
Defined.

Lemma bytes_range_app (rb : list byte) (a n b m : nat) :
  b = (a + n)%nat ->
  bytes_range rb a n ++ bytes_range rb b m = bytes_range rb a (n + m).
Proof.
  intros ->. unfold bytes_range.
  rewrite <- (drop_drop rb n a). apply take_take_drop.
Qed.

(** X23: the device-info decoder.  With fewer than 134 bytes in the
    frame it reads nothing; otherwise the text fields it reads have the
    widths 16, 8, 8, 16, 16, 8, 11, 5, 16 and 16 (the buffer being at
    least 134 bytes long) and, with the two 32-bit counters between the
    software version and the device name, tile bytes 6-133 without gap or
    overlap; the counters are the unsigned little-endian values of bytes
    38-41 and 42-45.  In both cases the object is only changed in
    new_data, which is cleared. *)
Theorem X23_device_info_fields (s : JKBMS) :
  (134 <= length (receivedBytes s))%nat ->
  let rb := receivedBytes s in
  fst (parseDeviceInfo s) = set_new_data false s
  /\ (frame s < 134 -> snd (parseDeviceInfo s) = None)
  /\ (134 <= frame s ->
      exists info,
        snd (parseDeviceInfo s) = Some info
        /\ vendorID info ++ hardwareVersion info ++ softwareVersion info
           ++ bytes_range rb 38 8
           ++ deviceName info ++ devicePasscode info
           ++ manufacturingDate info ++ serialNumber info ++ passcode info
           ++ userData info ++ setupPasscode info
           = bytes_range rb 6 128
        /\ length <$> [vendorID info; hardwareVersion info;
                       softwareVersion info; deviceName info;
                       devicePasscode info; manufacturingDate info;
                       serialNumber info; passcode info; userData info;
                       setupPasscode info]
           = [16; 8; 8; 16; 16; 8; 11; 5; 16; 16]%nat
        /\ uptime info = le_unsigned rb 38 4
        /\ powerOnCount info = le_unsigned rb 42 4).
Proof.
  intros Hlen rb. unfold parseDeviceInfo.
  cbn [frame receivedBytes set_new_data]. fold rb.
  destruct (Z.ltb_spec (frame s) 134) as [Hlt|Hge].
  { split; [done|]. split; [done|]. lia. }
  split; [done|]. split; [lia|]. intros _.
  eexists. split; [reflexivity|].
  cbn [vendorID hardwareVersion softwareVersion deviceName devicePasscode
       manufacturingDate serialNumber passcode userData setupPasscode
       uptime powerOnCount].
  split; [|split; [|split]].
  - rewrite !app_assoc.
    rewrite (bytes_range_app rb 6 _ 22), (bytes_range_app rb 6 _ 30),
      (bytes_range_app rb 6 _ 38), (bytes_range_app rb 6 _ 46),
      (bytes_range_app rb 6 _ 62), (bytes_range_app rb 6 _ 78),
      (bytes_range_app rb 6 _ 86), (bytes_range_app rb 6 _ 97),
      (bytes_range_app rb 6 _ 102), (bytes_range_app rb 6 _ 118)
      by reflexivity.
    reflexivity.
  - unfold bytes_range. cbn [fmap list_fmap].
    rewrite !length_take, !length_drop.
    subst rb. repeat (f_equal; try lia).
  - rewrite le32_value.
    apply twos_complement32_range, le_unsigned4_range.
  - rewrite le32_value.
    apply twos_complement32_range, le_unsigned4_range.
Qed.

Lemma X23_device_info_fields_witness :
  let s := sample_bytes 38 [x10; x0e; x00; x00] in
  let rb := receivedBytes s in
  fst (parseDeviceInfo s) = set_new_data false s
  /\ (frame s < 134 -> snd (parseDeviceInfo s) = None)
  /\ (134 <= frame s ->
      exists info,
        snd (parseDeviceInfo s) = Some info
        /\ vendorID info ++ hardwareVersion info ++ softwareVersion info
           ++ bytes_range rb 38 8
           ++ deviceName info ++ devicePasscode info
           ++ manufacturingDate info ++ serialNumber info ++ passcode info
           ++ userData info ++ setupPasscode info
           = bytes_range rb 6 128
        /\ length <$> [vendorID info; hardwareVersion info;
                       softwareVersion info; deviceName info;
                       devicePasscode info; manufacturingDate info;
                       serialNumber info; passcode info; userData info;
                       setupPasscode info]
           = [16; 8; 8; 16; 16; 8; 11; 5; 16; 16]%nat
        /\ uptime info = le_unsigned rb 38 4
        /\ powerOnCount info = le_unsigned rb 42 4).
Proof.
  apply (X23_device_info_fields (sample_bytes 38 [x10; x0e; x00; x00])).
  vm_compute. lia.
Defined.
